(** * count_states.py: counting the states a salt deployment plans

    A shallow embedding of [salt/count_states.py] and the properties of
    its recursive counter, of the command it builds and of the way it
    treats what [salt-call] prints.

    Python values are modelled as the script meets them:
    - a [str] is a [string]; one [ascii] stands for one code point, so
      the code points modelled are those below 256;
    - an [int] is a [Z];
    - what [json.loads] returns is a [json] tree, a [dict] being the list
      of its items in insertion order;
    - an exception is a constructor of [exn], and a function that may
      raise returns in the monad [M], which also records the commands
      handed to [execute_command]. *)

From Stdlib Require Import String Ascii ZArith List Bool Lia DecimalString.
From Stdlib Require Import Permutation.
Import ListNotations.

Local Open Scope string_scope.
Local Open Scope Z_scope.
Set Warnings "-register-all".

(* ================================================================== *)
(** * Characters and strings *)

(** The double quote and the line feed, the two characters the pattern
    of [re.sub] distinguishes. *)
Definition dquote : ascii := "034"%char.
Definition newline : ascii := "010"%char.
Definition backslash : ascii := "092"%char.

(** [dq s] is [s] with every apostrophe turned into a double quote; it
    only serves to write JSON texts legibly in examples. *)
Fixpoint dq (s : string) : string :=
  match s with
  | EmptyString => EmptyString
  | String c r => String (if Ascii.eqb c "'"%char then dquote else c) (dq r)
  end.

(** [strip_prefix p s] is what follows [p] in [s] when [s] starts with
    [p]. *)
Fixpoint strip_prefix (p s : string) : option string :=
  match p with
  | EmptyString => Some s
  | String a p' =>
      match s with
      | EmptyString => None
      | String b s' => if Ascii.eqb a b then strip_prefix p' s' else None
      end
  end.

(** [x in s] for two [str]: [x] occurs in [s] as a substring. *)
Fixpoint str_contains (x s : string) : bool :=
  match strip_prefix x s with
  | Some _ => true
  | None =>
      match s with
      | EmptyString => false
      | String _ s' => str_contains x s'
      end
  end.

(** No double quote occurs in [s]. *)
Fixpoint quote_free (s : string) : bool :=
  match s with
  | EmptyString => true
  | String c r => negb (Ascii.eqb c dquote) && quote_free r
  end.

(** No line feed occurs in [s]. *)
Fixpoint newline_free (s : string) : bool :=
  match s with
  | EmptyString => true
  | String c r => negb (Ascii.eqb c newline) && newline_free r
  end.

(* ================================================================== *)
(** * JSON values *)

(** The values [json.loads] builds.  A float is kept as the text
    [repr] prints for it, which is all [json.dumps] uses of it. *)
Inductive json : Type :=
| JNull
| JBool (b : bool)
| JInt (z : Z)
| JFloat (repr : string)
| JString (s : string)
| JArray (items : list json)
| JObject (members : list (string * json)).

(** The empty [dict], [{}]. *)
Definition empty_dict : json := JObject [].

(** Induction on [json] that reaches the values held in arrays and
    objects. *)
Section JsonInd.
Variable P : json -> Prop.
Hypothesis HNull : P JNull.
Hypothesis HBool : forall b, P (JBool b).
Hypothesis HInt : forall z, P (JInt z).
Hypothesis HFloat : forall r, P (JFloat r).
Hypothesis HString : forall s, P (JString s).
Hypothesis HArray : forall l, Forall P l -> P (JArray l).
Hypothesis HObject : forall kv, Forall (fun m => P (snd m)) kv -> P (JObject kv).

Fixpoint json_nested_ind (v : json) : P v :=
  match v with
  | JNull => HNull
  | JBool b => HBool b
  | JInt z => HInt z
  | JFloat r => HFloat r
  | JString s => HString s
  | JArray l =>
      HArray l
        ((fix go (l : list json) : Forall P l :=
            match l with
            | [] => Forall_nil P
            | x :: l' => Forall_cons x (json_nested_ind x) (go l')
            end) l)
  | JObject kv =>
      HObject kv
        ((fix go (kv : list (string * json)) : Forall (fun m => P (snd m)) kv :=
            match kv with
            | [] => Forall_nil _
            | m :: kv' => Forall_cons m (json_nested_ind (snd m)) (go kv')
            end) kv)
  end.
End JsonInd.

(* ------------------------------------------------------------------ *)
(** ** [json.dumps] with its default arguments *)

Definition hex_digit (n : nat) : ascii :=
  match n with
  | 0 => "0" | 1 => "1" | 2 => "2" | 3 => "3" | 4 => "4" | 5 => "5"
  | 6 => "6" | 7 => "7" | 8 => "8" | 9 => "9" | 10 => "a" | 11 => "b"
  | 12 => "c" | 13 => "d" | 14 => "e" | _ => "f"
  end%char%nat.

(** What [ensure_ascii] writes for one character: itself when it is
    printable ASCII other than the double quote and the backslash, a
    short escape for the usual control characters, [\u00xx] otherwise. *)
Definition escape_char (c : ascii) : string :=
  let n := nat_of_ascii c in
  if Nat.eqb n 34 then String backslash (String dquote "")
  else if Nat.eqb n 92 then String backslash (String backslash "")
  else if Nat.eqb n 10 then String backslash "n"
  else if Nat.eqb n 13 then String backslash "r"
  else if Nat.eqb n 9 then String backslash "t"
  else if Nat.eqb n 8 then String backslash "b"
  else if Nat.eqb n 12 then String backslash "f"
  else if (Nat.leb 32 n && Nat.leb n 126)%bool then String c ""
  else String backslash
         (String "u" (String "0" (String "0"
            (String (hex_digit (Nat.div n 16))
               (String (hex_digit (Nat.modulo n 16)) ""))))).

Fixpoint escape (s : string) : string :=
  match s with
  | EmptyString => EmptyString
  | String c r => escape_char c ++ escape r
  end.

(** A [str] as JSON text: escaped, between double quotes. *)
Definition encode_string (s : string) : string :=
  String dquote (escape s ++ String dquote "").

Definition string_of_Z (z : Z) : string :=
  NilZero.string_of_int (Z.to_int z).

(** [json.dumps(v)]: items separated by a comma and a space, key and
    value by a colon and a space, members in insertion order. *)
Fixpoint json_dumps (v : json) : string :=
  match v with
  | JNull => "null"
  | JBool true => "true"
  | JBool false => "false"
  | JInt z => string_of_Z z
  | JFloat r => r
  | JString s => encode_string s
  | JArray l => "[" ++ String.concat ", " (map json_dumps l) ++ "]"
  | JObject kv =>
      "{" ++ String.concat ", "
               (map (fun m => encode_string (fst m) ++ ": " ++ json_dumps (snd m)) kv)
          ++ "}"
  end.

(* ------------------------------------------------------------------ *)
(** ** The substitution [re.sub] performs on the serialized pillar

    The pattern is a double quote, the text /dev/, a lazy run of any
    characters but a line feed, and a double quote; the replacement is
    /dev/sda2 between double quotes. *)

(** The literal head of the pattern and the replacement. *)
Definition DEV_OPEN : string := String dquote "/dev/".
Definition DEV_SDA2 : string := String dquote ("/dev/sda2" ++ String dquote "").

(** The lazy run and the closing quote: the text after the first double
    quote, when no line feed comes before it (the dot of the pattern
    does not match a line feed). *)
Fixpoint find_close (s : string) : option string :=
  match s with
  | EmptyString => None
  | String c r =>
      if Ascii.eqb c dquote then Some r
      else if Ascii.eqb c newline then None
      else find_close r
  end.

(** A match of the pattern at the head of [s]: what follows it. *)
Definition match_dev (s : string) : option string :=
  match strip_prefix DEV_OPEN s with
  | Some r => find_close r
  | None => None
  end.

(** Leftmost matches, none overlapping, are replaced from left to
    right; the scan resumes after each match. *)
Fixpoint re_sub_dev_fuel (fuel : nat) (s : string) : string :=
  match fuel with
  | O => s
  | S fuel' =>
      match match_dev s with
      | Some rest => DEV_SDA2 ++ re_sub_dev_fuel fuel' rest
      | None =>
          match s with
          | EmptyString => EmptyString
          | String c r => String c (re_sub_dev_fuel fuel' r)
          end
      end
  end.

Definition re_sub_dev (s : string) : string :=
  re_sub_dev_fuel (S (String.length s)) s.
Arguments re_sub_dev : simpl never.

(** The text [run_lowstate] puts in the command for a pillar. *)
Definition pillar_text (pillar : json) : string :=
  re_sub_dev (json_dumps pillar).


(* ================================================================== *)
(** * Exceptions, results and the monad of the script *)

Inductive exn : Type :=
| KeyError | TypeError | IndexError | AttributeError
| ValueError        (* json.loads on undecodable text, shlex.split *)
| OSError           (* Popen could not start the program *)
| RecursionError.   (* the interpreter's recursion limit is reached *)

Inductive result (A : Type) : Type :=
| Ok (a : A)
| Raise (e : exn).
Arguments Ok {A} a.
Arguments Raise {A} e.

Definition rbind {A B} (r : result A) (f : A -> result B) : result B :=
  match r with
  | Ok a => f a
  | Raise e => Raise e
  end.

(** A command line, kept as the template and the values formatted into
    it. *)
Inductive command : Type :=
| LOWSTATE_CMD (saltenv : string)
| LOWSTATE_SLS_CMD (state_path : json) (saltenv : string) (pillar : string).

(** A computation returns or raises, and leaves the list of the commands
    it handed to [execute_command], oldest first. *)
Definition M (A : Type) : Type := (result A * list command)%type.

Definition ret {A} (a : A) : M A := (Ok a, []).
Definition raise {A} (e : exn) : M A := (Raise e, []).
Definition lift {A} (r : result A) : M A := (r, []).
Definition tell (c : command) : M unit := (Ok tt, [c]).

Definition bind {A B} (m : M A) (f : A -> M B) : M B :=
  match fst m with
  | Ok a => (fst (f a), (snd m ++ snd (f a))%list)
  | Raise e => (Raise e, snd m)
  end.

(** What a computation returns or raises, and the commands it ran. *)
Definition value {A} (m : M A) : result A := fst m.
Definition executed {A} (m : M A) : list command := snd m.

Declare Scope py_scope.
Delimit Scope py_scope with py.
Notation "x <- m ;; k" := (bind m (fun x => k))
  (at level 61, m at next level, right associativity) : py_scope.
Notation "m ;; k" := (bind m (fun _ => k))
  (at level 61, right associativity) : py_scope.
Notation "x <~ r ;; k" := (rbind r (fun x => k))
  (at level 61, r at next level, right associativity) : py_scope.
Local Open Scope py_scope.

Fixpoint foldM {A B} (f : A -> B -> M A) (a : A) (l : list B) : M A :=
  match l with
  | [] => ret a
  | x :: l' => a' <- f a x ;; foldM f a' l'
  end.

(* ================================================================== *)
(** * The operations of Python the script applies to decoded JSON *)

(** Looking a key up in the items of a [dict]. *)
Fixpoint lookup (key : string) (kv : list (string * json)) : option json :=
  match kv with
  | [] => None
  | (k, v) :: kv' => if String.eqb k key then Some v else lookup key kv'
  end.

(** [v == text] for a [str] literal [text]. *)
Definition py_eq_str (v : json) (text : string) : bool :=
  match v with
  | JString s => String.eqb s text
  | _ => false
  end.

(** [v[key]] for a [str] key. *)
Definition py_getitem (v : json) (key : string) : result json :=
  match v with
  | JObject kv =>
      match lookup key kv with
      | Some x => Ok x
      | None => Raise KeyError
      end
  | _ => Raise TypeError
  end.

(** [v[i]] for an index [i] that is not negative. *)
Definition py_index (v : json) (i : nat) : result json :=
  match v with
  | JArray l =>
      match nth_error l i with
      | Some x => Ok x
      | None => Raise IndexError
      end
  | JString s =>
      match String.get i s with
      | Some c => Ok (JString (String c ""))
      | None => Raise IndexError
      end
  | JObject _ => Raise KeyError
  | _ => Raise TypeError
  end.

(** [key in v] for a [str] key: a key of a [dict], an item of a [list],
    a substring of a [str]. *)
Definition py_contains (key : string) (v : json) : result bool :=
  match v with
  | JObject kv =>
      Ok (match lookup key kv with Some _ => true | None => false end)
  | JArray l => Ok (existsb (fun x => py_eq_str x key) l)
  | JString s => Ok (str_contains key s)
  | _ => Raise TypeError
  end.

(** [len(v)]. *)
Definition py_len (v : json) : result Z :=
  match v with
  | JArray l => Ok (Z.of_nat (List.length l))
  | JObject kv => Ok (Z.of_nat (List.length kv))
  | JString s => Ok (Z.of_nat (String.length s))
  | _ => Raise TypeError
  end.

Fixpoint chars (s : string) : list json :=
  match s with
  | EmptyString => []
  | String c r => JString (String c "") :: chars r
  end.

(** What [for x in v] runs through: the items of a [list], the keys of
    a [dict], the characters of a [str]. *)
Definition py_iter (v : json) : result (list json) :=
  match v with
  | JArray l => Ok l
  | JObject kv => Ok (map (fun m => JString (fst m)) kv)
  | JString s => Ok (chars s)
  | _ => Raise TypeError
  end.

(** [v.get(key, default)]: only a [dict] has the method. *)
Definition py_get (v : json) (key : string) (default : json) : result json :=
  match v with
  | JObject kv =>
      match lookup key kv with
      | Some x => Ok x
      | None => Ok default
      end
  | _ => Raise AttributeError
  end.

(* ================================================================== *)
(** * The script *)

(** The captured standard output of a process, as [json.loads] sees
    it: text that decodes to a value, or text that does not decode. *)
Inductive captured : Type :=
| Decodes (data : json)
| Undecodable.

(** What launching a command line leads to. *)
Inductive outcome : Type :=
| BadCommandLine                      (* shlex.split raises ValueError *)
| NotStarted                          (* Popen raises OSError *)
| Exited (returncode : Z) (out : captured).

Definition LOW_STATES : list string := ["os_setup"].
Definition SALTENVS : list string := ["predeployment"; "base"].

Section Script.

(** The machine the script runs on: what each command line does. *)
Variable salt_call : command -> outcome.

(** [execute_command(cmd)]: the exit status is not looked at, nor is
    the standard error. *)
Definition execute_command (cmd : command) : M json :=
  tell cmd ;;
  match salt_call cmd with
  | BadCommandLine => raise ValueError
  | NotStarted => raise OSError
  | Exited _ (Decodes data) => ret data
  | Exited _ Undecodable => raise ValueError
  end.

(** The test of the loop of [count_inner_states]; [and] evaluates its
    right operand only when the left one is true. *)
Definition is_inner_state (state : json) : result bool :=
  found <~ py_contains "state.sls" state ;;
  if found then
    kind <~ py_getitem state "state" ;;
    Ok (py_eq_str kind "module")
  else Ok false.

(** The two lines that assign [pillar] inside the loop: [sls] is the
    value of the record under the key state.sls, and [pillar] the
    value the variable holds when they are reached. *)
Definition inner_pillar (pillar sls : json) : result json :=
  n <~ py_len sls ;;
  if 1 <? n then
    second <~ py_index sls 1 ;;
    py_get second "pillar" empty_dict
  else Ok pillar.

(** One turn of the loop of [count_inner_states].  [state_count] and
    [pillar] are assigned before the loop and live across its turns;
    [run] stands for [run_lowstate].  The argument of the call to
    [LOGGER.debug] is evaluated whatever the logging level. *)
Definition inner_state (run : json -> string -> json -> M Z) (saltenv : string)
    (vars : Z * json) (state : json) : M (Z * json) :=
  let '(state_count, pillar) := vars in
  found <- lift (is_inner_state state) ;;
  if (found : bool) then
    lift (py_getitem state "name") ;;
    sls <- lift (py_getitem state "state.sls") ;;
    first <- lift (py_index sls 0) ;;
    mods <- lift (py_getitem first "mods") ;;
    pillar <- lift (inner_pillar pillar sls) ;;
    names <- lift (py_iter mods) ;;
    state_count <- foldM (fun count name =>
                            k <- run name saltenv pillar ;;
                            ret (count + k))
                         state_count names ;;
    ret (state_count, pillar)
  else ret vars.

(** [count_inner_states], open in the function it calls back. *)
Definition count_inner_states_with (run : json -> string -> json -> M Z)
    (saltenv : string) (states : json) : M Z :=
  local <- lift (py_getitem states "local") ;;
  batch <- lift (py_iter local) ;;
  vars <- foldM (inner_state run saltenv) (0, empty_dict) batch ;;
  ret (fst vars).

(** [run_lowstate(state_path, saltenv, pillar)].  [depth] is the
    number of nested calls the interpreter still allows. *)
Fixpoint run_lowstate (depth : nat) (state_path : json) (saltenv : string)
    (pillar : json) : M Z :=
  match depth with
  | O => raise RecursionError
  | S depth' =>
      let state_count := 0 in
      let pillar := json_dumps pillar in
      let pillar := re_sub_dev pillar in
      let cmd := LOWSTATE_SLS_CMD state_path saltenv pillar in
      state_data <- execute_command cmd ;;
      local <- lift (py_getitem state_data "local") ;;
      n <- lift (py_len local) ;;
      let state_count := state_count + n in
      k <- count_inner_states_with (run_lowstate depth') saltenv state_data ;;
      ret (state_count + k)
  end.

Definition count_inner_states (depth : nat) : string -> json -> M Z :=
  count_inner_states_with (run_lowstate depth).

(** The body of [main], for any two lists in place of [LOW_STATES]
    and [SALTENVS]; [run_lowstate(state_path=state)] takes the
    defaults of its two other parameters, the environment base and
    the empty pillar. *)
Definition scan (depth : nat) (low_states saltenvs : list string) : M Z :=
  state_count <- foldM (fun count state =>
                          k <- run_lowstate depth (JString state) "base" empty_dict ;;
                          ret (count + k))
                       0 low_states ;;
  foldM (fun count saltenv =>
           let cmd := LOWSTATE_CMD saltenv in
           state_data <- execute_command cmd ;;
           local <- lift (py_getitem state_data "local") ;;
           current_state_count <- lift (py_len local) ;;
           let count := count + current_state_count in
           k <- count_inner_states depth saltenv state_data ;;
           ret (count + k))
        state_count saltenvs.

Definition main (depth : nat) : M Z := scan depth LOW_STATES SALTENVS.

End Script.

(* ------------------------------------------------------------------ *)
(** ** What the statements about the script speak of *)

(** [cmd] renders the batch [batch], below which [nested] further
    states are counted in [saltenv]. *)
Definition renders (salt_call : command -> outcome) (depth : nat)
    (cmd : command) (saltenv : string) (batch : list json) (nested : Z) : Prop :=
  exists state_data,
    value (execute_command salt_call cmd) = Ok state_data
    /\ py_getitem state_data "local" = Ok (JArray batch)
    /\ value (count_inner_states salt_call depth saltenv state_data) = Ok nested.

(** The sum of [len(batch) + nested] over a list of renders. *)
Definition total (rs : list (list json * Z)) : Z :=
  fold_right (fun r acc => Z.of_nat (List.length (fst r)) + snd r + acc) 0 rs.

(** [cmd] did not render: [execute_command] raised on it. *)
Definition render_fails (salt_call : command -> outcome) (cmd : command) : Prop :=
  exists e, value (execute_command salt_call cmd) = Raise e.

(** A computation aborts on failure when it raises as soon as one of
    the commands it ran did not render. *)
Definition aborts_on_failure {A} (salt_call : command -> outcome) (m : M A) : Prop :=
  forall cmd, In cmd (executed m) -> render_fails salt_call cmd ->
              exists e, value m = Raise e.

(** [run'] returns what [run] returns, whenever [run] returns. *)
Definition extends (run run' : json -> string -> json -> M Z) : Prop :=
  forall name saltenv pillar k,
    value (run name saltenv pillar) = Ok k ->
    run' name saltenv pillar = run name saltenv pillar.

(** The record brings its own second entry under state.sls, so that
    the loop assigns [pillar] on it. *)
Definition sets_pillar (state : json) : bool :=
  match state with
  | JObject members =>
      match lookup "state.sls" members with
      | Some (JArray (_ :: _ :: _)) => true
      | _ => false
      end
  | _ => false
  end.

(** What a record adds to the running total, whatever the variables of
    the loop hold when it is reached. *)
Definition contribution (run : json -> string -> json -> M Z) (saltenv : string)
    (state : json) : result Z :=
  vars <~ value (inner_state run saltenv (0, empty_dict) state) ;;
  Ok (fst vars).

(** Adding up contributions, the first that raises ending the sum. *)
Fixpoint add_up (count : Z) (rs : list (result Z)) : result Z :=
  match rs with
  | [] => Ok count
  | r :: rs' => k <~ r ;; add_up (count + k) rs'
  end.

(* ------------------------------------------------------------------ *)
(** ** Records and machines for the scenarios *)

(** A record that invokes no module. *)
Definition plain (name : string) : json :=
  JObject [("name", JString name); ("state", JString "file");
           ("fun", JString "managed")].

(** A record that invokes [state.sls] with the entries [sls]. *)
Definition invoke (name : string) (sls : list json) : json :=
  JObject [("name", JString name); ("state", JString "module");
           ("fun", JString "run"); ("state.sls", JArray sls)].

Definition mods_entry (names : list string) : json :=
  JObject [("mods", JArray (map JString names))].

Definition pillar_entry (pillar : json) : json :=
  JObject [("pillar", pillar)].

(** What [salt-call] prints for a batch. *)
Definition local_of (batch : list json) : json :=
  JObject [("local", JArray batch)].

(** Scenario A: every render gives three plain records. *)
Definition batch_A : list json := [plain "a"; plain "b"; plain "c"].
Definition salt_call_A (cmd : command) : outcome :=
  Exited 0 (Decodes (local_of batch_A)).

(** Scenario C and its neighbours: pillars that name devices. *)
Definition pillar_C : json := JObject [("device", JString "/dev/xvdb")].

(** A device name that holds a double quote: /dev/a, the quote, b. *)
Definition pillar_quoted : json :=
  JObject [("device", JString ("/dev/a" ++ String dquote "b"))].

(** Two keys that name devices. *)
Definition pillar_keys : json := JObject [("/dev/a", JInt 1); ("/dev/b", JInt 2)].

(** A machine on which every command exits with status 1 after
    printing an empty batch. *)
Definition salt_call_status_1 (cmd : command) : outcome :=
  Exited 1 (Decodes (local_of [])).

(** A machine on which the full lowstate of base prints text that
    does not decode, every other command rendering three plain
    records. *)
Definition salt_call_undecodable (cmd : command) : outcome :=
  match cmd with
  | LOWSTATE_CMD "base" => Exited 0 Undecodable
  | _ => Exited 0 (Decodes (local_of batch_A))
  end.

(** A machine on which every command prints a mapping that has no
    key local. *)
Definition no_local : json := JObject [("retcode", JInt 0)].
Definition salt_call_no_local (cmd : command) : outcome :=
  Exited 0 (Decodes no_local).

(** Two records that invoke a module each: the first comes with a
    pillar, the second with none. *)
Definition with_pillar : json :=
  invoke "first" [mods_entry ["one"];
                  pillar_entry (JObject [("k", JString "v")])].
Definition without_pillar : json := invoke "second" [mods_entry ["two"]].

(** A machine on which every module renders an empty batch. *)
Definition salt_call_empty (cmd : command) : outcome :=
  Exited 0 (Decodes (local_of [])).

(** A machine on which the module two renders one record when its
    pillar sets k to v and none otherwise, every other module rendering
    an empty batch. *)
Definition salt_call_keyed (cmd : command) : outcome :=
  match cmd with
  | LOWSTATE_SLS_CMD (JString "two") _ pillar =>
      if String.eqb pillar (dq "{'k': 'v'}")
      then Exited 0 (Decodes (local_of [plain "a"]))
      else Exited 0 (Decodes (local_of []))
  | _ => Exited 0 (Decodes (local_of []))
  end.

(** Scenario B: the root module renders two records, one of which
    invokes the module foo with no pillar; foo renders four plain
    records. *)
Definition batch_B : list json := [plain "a"; invoke "nested" [mods_entry ["foo"]]].
Definition batch_foo : list json := [plain "p"; plain "q"; plain "r"; plain "s"].
Definition salt_call_B (cmd : command) : outcome :=
  match cmd with
  | LOWSTATE_SLS_CMD (JString "foo") _ _ => Exited 0 (Decodes (local_of batch_foo))
  | _ => Exited 0 (Decodes (local_of batch_B))
  end.

(* ================================================================== *)
(** * What the substitution amounts to on a serialized pillar *)

(** [json.dumps] with the writer of strings left open. *)
Fixpoint dumps_with (enc : string -> string) (v : json) : string :=
  match v with
  | JNull => "null"
  | JBool true => "true"
  | JBool false => "false"
  | JInt z => string_of_Z z
  | JFloat r => r
  | JString s => enc s
  | JArray l => "[" ++ String.concat ", " (map (dumps_with enc) l) ++ "]"
  | JObject kv =>
      "{" ++ String.concat ", "
               (map (fun m => enc (fst m) ++ ": " ++ dumps_with enc (snd m)) kv)
          ++ "}"
  end.

(** What the substitution makes of one serialized string. *)
Definition device_token (s : string) : string :=
  re_sub_dev (encode_string s).

(** The text of every float of [v] holds no double quote, as is the
    case of whatever [repr] prints. *)
Fixpoint floats_printed (v : json) : bool :=
  match v with
  | JFloat r => quote_free r
  | JArray l => forallb floats_printed l
  | JObject kv => forallb (fun m => floats_printed (snd m)) kv
  | _ => true
  end.

(** Whether a [str] starts with /dev/. *)
Definition is_device_path (s : string) : bool :=
  match strip_prefix "/dev/" s with
  | Some _ => true
  | None => false
  end.

(** The normalization as the specification words it: every string
    value, at any depth, that is a device path becomes /dev/sda2; keys
    and everything else stay. *)
Fixpoint normalize_values (v : json) : json :=
  match v with
  | JString s => if is_device_path s then JString "/dev/sda2" else JString s
  | JArray l => JArray (map normalize_values l)
  | JObject kv => JObject (map (fun m => (fst m, normalize_values (snd m))) kv)
  | _ => v
  end.

(** [f] writes texts that the substitution treats apart from what
    follows them, giving what [g] writes. *)
Definition treated_apart {A} (f g : A -> string) (x : A) : Prop :=
  forall b, is_device_path b = false ->
            re_sub_dev (f x ++ b) = g x ++ re_sub_dev b.

(** The string the substitution leaves in place of [s], when [s] holds
    no double quote. *)
Definition device_safe (s : string) : string :=
  if is_device_path s then "/dev/sda2" else s.

(** The pillar in which every string, key or value, at any depth, that
    is a device path has become /dev/sda2. *)
Fixpoint normalize_strings (v : json) : json :=
  match v with
  | JString s => JString (device_safe s)
  | JArray l => JArray (map normalize_strings l)
  | JObject kv =>
      JObject (map (fun m => (device_safe (fst m), normalize_strings (snd m))) kv)
  | _ => v
  end.

(** No key and no string of [v] holds a double quote, nor does the
    text of a float. *)
Fixpoint strings_plain (v : json) : bool :=
  match v with
  | JFloat r => quote_free r
  | JString s => quote_free s
  | JArray l => forallb strings_plain l
  | JObject kv => forallb (fun m => quote_free (fst m) && strings_plain (snd m)) kv
  | _ => true
  end.

(** A machine on which the module broken does not render: what is
    printed under local is a list of two messages; on the module
    worse it is one message, and on any other module a message that
    names the function state.sls. *)
Definition salt_call_messages (cmd : command) : outcome :=
  match cmd with
  | LOWSTATE_SLS_CMD (JString "broken") _ _ =>
      Exited 1 (Decodes (local_of [JString "Rendering SLS failed";
                                  JString "No matching sls found"]))
  | LOWSTATE_SLS_CMD (JString "worse") _ _ =>
      Exited 1 (Decodes (JObject [("local", JString "No such file")]))
  | _ => Exited 1 (Decodes (local_of [JString "state.sls is not available"]))
  end.

(** A machine on which the module loop renders a plain record and a
    record that invokes loop again. *)
Definition salt_call_loop (cmd : command) : outcome :=
  match cmd with
  | LOWSTATE_SLS_CMD (JString "loop") _ _ =>
      Exited 0 (Decodes (local_of [plain "a"; invoke "again" [mods_entry ["loop"]]]))
  | _ => Exited 0 (Decodes (local_of []))
  end.

(** The length of what [cmd] prints under the key local, 0 when it
    prints nothing that has one. *)
Definition rendered_length (salt_call : command -> outcome) (cmd : command) : Z :=
  match salt_call cmd with
  | Exited _ (Decodes state_data) =>
      match (local <~ py_getitem state_data "local" ;; py_len local) with
      | Ok n => n
      | Raise _ => 0
      end
  | _ => 0
  end.

(** The sum of those lengths over a list of commands. *)
Fixpoint sum_lengths (salt_call : command -> outcome) (cmds : list command) : Z :=
  match cmds with
  | [] => 0
  | cmd :: rest => rendered_length salt_call cmd + sum_lengths salt_call rest
  end.

(** When [m] returns, what [measure] gives of its result is [start]
    plus the lengths of the batches its commands rendered. *)
Definition accounts {A} (salt_call : command -> outcome) (measure : A -> Z)
    (start : Z) (m : M A) : Prop :=
  forall a, value m = Ok a ->
            measure a = start + sum_lengths salt_call (executed m).

(** A command that renders a module in [saltenv], with a pillar text
    in which the substitution finds nothing more to replace. *)
Definition nested_command (saltenv : string) (cmd : command) : Prop :=
  match cmd with
  | LOWSTATE_SLS_CMD _ env text => env = saltenv /\ re_sub_dev text = text
  | LOWSTATE_CMD _ => False
  end.

(** A command of a scan: the full lowstate of one of [saltenvs], or
    the render of a module in base or in one of [saltenvs]. *)
Definition scan_command (saltenvs : list string) (cmd : command) : Prop :=
  match cmd with
  | LOWSTATE_CMD env => In env saltenvs
  | LOWSTATE_SLS_CMD _ env text =>
      (env = "base" \/ In env saltenvs) /\ re_sub_dev text = text
  end.

(** [cmd] rendered: [execute_command] returned on it. *)
Definition render_returns (salt_call : command -> outcome) (cmd : command) : Prop :=
  exists state_data, value (execute_command salt_call cmd) = Ok state_data.

(** Every command [m] ran rendered, but for the last one when [m]
    raises. *)
Definition orderly {A} (salt_call : command -> outcome) (m : M A) : Prop :=
  Forall (render_returns salt_call) (removelast (executed m))
  /\ (forall a, value m = Ok a -> Forall (render_returns salt_call) (executed m)).

(** A machine on which the full lowstate of predeployment prints text
    that does not decode, every other command rendering three plain
    records. *)
Definition salt_call_first_env_fails (cmd : command) : outcome :=
  match cmd with
  | LOWSTATE_CMD "predeployment" => Exited 0 Undecodable
  | _ => Exited 0 (Decodes (local_of batch_A))
  end.

(** Two outcomes that differ at most by the exit status. *)
Definition same_output (o o' : outcome) : Prop :=
  match o, o' with
  | BadCommandLine, BadCommandLine => True
  | NotStarted, NotStarted => True
  | Exited _ out, Exited _ out' => out = out'
  | _, _ => False
  end.

(** The machine of scenario B, but for the exit status of its
    processes, which is 2. *)
Definition salt_call_B_status (cmd : command) : outcome :=
  match salt_call_B cmd with
  | Exited _ out => Exited 2 out
  | o => o
  end.

(** A record that invokes the module foo with a pillar of its own. *)
Definition invoke_foo : json :=
  invoke "nested" [mods_entry ["foo"]; pillar_entry (JObject [("k", JString "v")])].

(** A record whose modules are given as one string. *)
Definition invoke_string : json :=
  JObject [("name", JString "nested"); ("state", JString "module");
           ("state.sls", JArray [JObject [("mods", JString "ab")]])].

(** A record that invokes the module sbd with the pillar of
    scenario C. *)
Definition invoke_sbd : json :=
  invoke "disk" [mods_entry ["sbd"]; pillar_entry pillar_C].

(** What [cmd] prints decodes, and reading its key local raises
    [e]. *)
Definition missing_key (salt_call : command -> outcome) (cmd : command)
    (e : exn) : Prop :=
  exists returncode data,
    salt_call cmd = Exited returncode (Decodes data)
    /\ py_getitem data "local" = Raise e.

(** [m] raises what reading the key local raises on the output of a
    command it ran, and ran nothing after such a command. *)
Definition halts_on_missing_key {A} (salt_call : command -> outcome) (m : M A)
    : Prop :=
  (forall cmd e, In cmd (executed m) -> missing_key salt_call cmd e ->
                 value m = Raise e)
  /\ Forall (fun cmd => forall e, ~ missing_key salt_call cmd e)
            (removelast (executed m)).

(** A machine on which the module foo prints a mapping without the
    key local, every other command rendering the batch of
    scenario B, which invokes foo. *)
Definition salt_call_nested_no_local (cmd : command) : outcome :=
  match cmd with
  | LOWSTATE_SLS_CMD (JString "foo") _ _ => Exited 0 (Decodes no_local)
  | _ => Exited 0 (Decodes (local_of batch_B))
  end.

(** A machine on which the environment base prints a mapping without
    the key local, every other command rendering one plain record. *)
Definition salt_call_base_no_local (cmd : command) : outcome :=
  match cmd with
  | LOWSTATE_CMD "base" => Exited 0 (Decodes no_local)
  | _ => Exited 0 (Decodes (local_of [plain "a"]))
  end.

(** No string occurs twice in [l]. *)
Fixpoint distinct (l : list string) : bool :=
  match l with
  | [] => true
  | s :: l' => negb (existsb (String.eqb s) l') && distinct l'
  end.

(** The keys of every mapping of [v], at any depth, are pairwise
    distinct, as those of a Python dict are. *)
Fixpoint dict_keys_distinct (v : json) : bool :=
  match v with
  | JArray l => forallb dict_keys_distinct l
  | JObject kv =>
      distinct (map fst kv) && forallb (fun m => dict_keys_distinct (snd m)) kv
  | _ => true
  end.

(** A pillar with device paths as a key and in a list, two levels
    down. *)
Definition pillar_nested : json :=
  JObject [("sbd", JObject [("/dev/xvdc", JArray [JString "/dev/xvdd"; JInt 1])]);
           ("name", JString "node")].

(* ================================================================== *)
(** * Strings: append, prefixes and the scan for the closing quote *)

Lemma append_nil_r (s : string) : s ++ "" = s.
Proof. induction s as [|c s IH]; simpl; [reflexivity | now rewrite IH]. Qed.

Lemma append_assoc (a b c : string) : (a ++ b) ++ c = a ++ (b ++ c).
Proof. induction a as [|x a IH]; simpl; [reflexivity | now rewrite IH]. Qed.

Lemma length_append (a b : string) :
  String.length (a ++ b) = (String.length a + String.length b)%nat.
Proof. induction a as [|x a IH]; simpl; [reflexivity | now rewrite IH]. Qed.

Lemma strip_prefix_Some (p s r : string) :
  strip_prefix p s = Some r <-> s = p ++ r.
Proof.
  revert s; induction p as [|a p IH]; intros s; simpl.
  - split; [now intros [= ->] | now intros ->].
  - destruct s as [|b s]; [split; discriminate|].
    destruct (Ascii.eqb_spec a b) as [->|Hab].
    + rewrite IH. split; [now intros -> | now intros [= ->]].
    + split; [discriminate | intros [= <- _]; now elim Hab].
Qed.

Lemma strip_prefix_app (p r : string) : strip_prefix p (p ++ r) = Some r.
Proof. now apply strip_prefix_Some. Qed.

Lemma find_close_length (s r : string) :
  find_close s = Some r -> (String.length r < String.length s)%nat.
Proof.
  revert r; induction s as [|c s IH]; intros r; simpl; [discriminate|].
  destruct (Ascii.eqb c dquote); [intros [= ->]; lia|].
  destruct (Ascii.eqb c newline); [discriminate|].
  intros H; specialize (IH _ H); lia.
Qed.

Lemma match_dev_length (s r : string) :
  match_dev s = Some r -> (String.length r < String.length s)%nat.
Proof.
  unfold match_dev. destruct (strip_prefix DEV_OPEN s) as [t|] eqn:E; [|discriminate].
  apply strip_prefix_Some in E; subst s. intros H%find_close_length.
  rewrite length_append. lia.
Qed.

(** A match starts with a double quote. *)
Lemma match_dev_head (c : ascii) (s r : string) :
  match_dev (String c s) = Some r -> c = dquote.
Proof.
  unfold match_dev.
  destruct (strip_prefix DEV_OPEN (String c s)) as [t|] eqn:E; [|discriminate].
  apply strip_prefix_Some in E. unfold DEV_OPEN in E. simpl in E.
  intros _. now injection E.
Qed.

(* ------------------------------------------------------------------ *)
(** ** The equation of [re_sub_dev] *)

Lemma re_sub_dev_fuel_irrelevant (f1 f2 : nat) (s : string) :
  (String.length s < f1)%nat -> (String.length s < f2)%nat ->
  re_sub_dev_fuel f1 s = re_sub_dev_fuel f2 s.
Proof.
  revert f2 s; induction f1 as [|f1 IH]; intros f2 s H1 H2; [lia|].
  destruct f2 as [|f2]; [lia|]. cbn [re_sub_dev_fuel].
  destruct (match_dev s) as [rest|] eqn:E.
  - apply match_dev_length in E. f_equal. apply IH; lia.
  - destruct s as [|c r]; [reflexivity|]. cbn [String.length] in H1, H2.
    f_equal. apply IH; lia.
Qed.

Lemma re_sub_dev_eq (s : string) :
  re_sub_dev s =
  match match_dev s with
  | Some rest => DEV_SDA2 ++ re_sub_dev rest
  | None =>
      match s with
      | EmptyString => EmptyString
      | String c r => String c (re_sub_dev r)
      end
  end.
Proof.
  unfold re_sub_dev at 1. cbn [re_sub_dev_fuel].
  destruct (match_dev s) as [rest|] eqn:E.
  - f_equal. apply match_dev_length in E.
    apply re_sub_dev_fuel_irrelevant; lia.
  - now destruct s.
Qed.

Lemma re_sub_dev_nil : re_sub_dev "" = "".
Proof. reflexivity. Qed.

Lemma re_sub_dev_match (s rest : string) :
  match_dev s = Some rest -> re_sub_dev s = DEV_SDA2 ++ re_sub_dev rest.
Proof. intros H. now rewrite re_sub_dev_eq, H. Qed.

Lemma re_sub_dev_skip (c : ascii) (s : string) :
  match_dev (String c s) = None ->
  re_sub_dev (String c s) = String c (re_sub_dev s).
Proof. intros H. now rewrite re_sub_dev_eq, H. Qed.

Lemma re_sub_dev_other (c : ascii) (s : string) :
  c <> dquote -> re_sub_dev (String c s) = String c (re_sub_dev s).
Proof.
  intros H. apply re_sub_dev_skip.
  destruct (match_dev (String c s)) eqn:E; [|reflexivity].
  now apply match_dev_head in E.
Qed.

(* ------------------------------------------------------------------ *)
(** ** A second pass finds what the first one left *)

(** When no quote closes a run in [s], none does after the
    substitution. *)
Lemma find_close_re_sub_dev_None (s : string) :
  find_close s = None -> find_close (re_sub_dev s) = None.
Proof.
  induction s as [|c s IH]; [reflexivity|]. simpl.
  destruct (Ascii.eqb_spec c dquote) as [->|Hq]; [discriminate|].
  rewrite re_sub_dev_other by assumption. simpl.
  destruct (Ascii.eqb_spec c dquote); [contradiction|].
  destruct (Ascii.eqb c newline); [reflexivity | exact IH].
Qed.

(** The substitution keeps a first character that is no double
    quote. *)
Lemma re_sub_dev_head (s : string) (c : ascii) (t : string) :
  re_sub_dev s = String c t -> c <> dquote ->
  exists s', s = String c s' /\ re_sub_dev s' = t.
Proof.
  intros H Hc. destruct s as [|a s]; [rewrite re_sub_dev_eq in H; discriminate|].
  destruct (match_dev (String a s)) as [rest|] eqn:E.
  - rewrite (re_sub_dev_match _ _ E) in H. unfold DEV_SDA2 in H. simpl in H.
    injection H as <- _. now elim Hc.
  - rewrite (re_sub_dev_skip _ _ E) in H. injection H as -> <-. now exists s.
Qed.

(** Where the pattern does not match before the substitution of what
    follows, it does not match after it. *)
Lemma match_dev_re_sub_dev_None (c : ascii) (s : string) :
  match_dev (String c s) = None -> match_dev (String c (re_sub_dev s)) = None.
Proof.
  intros H. destruct (match_dev (String c (re_sub_dev s))) as [r|] eqn:E; [|reflexivity].
  exfalso. unfold match_dev in E.
  destruct (strip_prefix DEV_OPEN (String c (re_sub_dev s))) as [t|] eqn:P; [|discriminate].
  apply strip_prefix_Some in P. unfold DEV_OPEN in P. simpl in P.
  injection P as -> P.
  apply re_sub_dev_head in P as (s1 & -> & P); [|discriminate].
  apply re_sub_dev_head in P as (s2 & -> & P); [|discriminate].
  apply re_sub_dev_head in P as (s3 & -> & P); [|discriminate].
  apply re_sub_dev_head in P as (s4 & -> & P); [|discriminate].
  apply re_sub_dev_head in P as (s5 & -> & P); [|discriminate].
  subst t. unfold match_dev, DEV_OPEN in H. simpl in H.
  apply find_close_re_sub_dev_None in H. congruence.
Qed.

Lemma match_dev_DEV_SDA2 (t : string) : match_dev (DEV_SDA2 ++ t) = Some t.
Proof. reflexivity. Qed.

Lemma re_sub_dev_idempotent (s : string) :
  re_sub_dev (re_sub_dev s) = re_sub_dev s.
Proof.
  remember (String.length s) as n eqn:Hn. revert s Hn.
  induction n as [n IH] using lt_wf_ind. intros s ->.
  destruct (match_dev s) as [rest|] eqn:E.
  - rewrite (re_sub_dev_match _ _ E).
    rewrite (re_sub_dev_match _ _ (match_dev_DEV_SDA2 _)).
    f_equal. apply (IH (String.length rest)); [now apply match_dev_length | reflexivity].
  - destruct s as [|c s]; [reflexivity|].
    rewrite (re_sub_dev_skip _ _ E).
    rewrite (re_sub_dev_skip _ _ (match_dev_re_sub_dev_None _ _ E)).
    f_equal. apply (IH (String.length s)); [simpl; lia | reflexivity].
Qed.

(* ================================================================== *)
(** * The substitution on a serialized pillar, string by string *)

Lemma quote_free_app (a b : string) :
  quote_free (a ++ b) = quote_free a && quote_free b.
Proof.
  induction a as [|c a IH]; simpl; [reflexivity|].
  now rewrite IH, andb_assoc.
Qed.

Lemma newline_free_app (a b : string) :
  newline_free (a ++ b) = newline_free a && newline_free b.
Proof.
  induction a as [|c a IH]; simpl; [reflexivity|].
  now rewrite IH, andb_assoc.
Qed.

(** Text without a double quote goes through unchanged. *)
Lemma re_sub_dev_plain (u b : string) :
  quote_free u = true -> re_sub_dev (u ++ b) = u ++ re_sub_dev b.
Proof.
  induction u as [|c u IH]; simpl; [reflexivity|].
  intros [Hc Hu]%andb_prop.
  rewrite re_sub_dev_other.
  - now rewrite IH.
  - intros ->. now rewrite Ascii.eqb_refl in Hc.
Qed.

Lemma re_sub_dev_quote_free (u : string) :
  quote_free u = true -> re_sub_dev u = u.
Proof.
  intros H. rewrite <- (append_nil_r u) at 1.
  rewrite re_sub_dev_plain by assumption.
  now rewrite (re_sub_dev_eq ""), append_nil_r.
Qed.

Lemma find_close_app_Some (x y r : string) :
  find_close x = Some r -> find_close (x ++ y) = Some (r ++ y).
Proof.
  revert r; induction x as [|c x IH]; intros r; simpl; [discriminate|].
  destruct (Ascii.eqb c dquote); [now intros [= ->]|].
  destruct (Ascii.eqb c newline); [discriminate | apply IH].
Qed.

(** In text without a line feed that ends with a double quote, the
    run closes: at a quote inside it, or at the last one. *)
Lemma find_close_closed (x : string) :
  newline_free x = true ->
  find_close (x ++ String dquote "") = Some ""
  \/ exists x', find_close (x ++ String dquote "") = Some (x' ++ String dquote "")
                /\ newline_free x' = true
                /\ (String.length x' < String.length x)%nat.
Proof.
  induction x as [|c x IH]; simpl; [now left|].
  intros [Hc Hx]%andb_prop.
  destruct (Ascii.eqb c dquote).
  - right. exists x. repeat split; [assumption | lia].
  - apply negb_true_iff in Hc. rewrite Hc.
    destruct (IH Hx) as [H | (x' & H & Hn & Hl)]; [now left|].
    right. exists x'. repeat split; [assumption.. | lia].
Qed.

(** How a prefix is found in a concatenation: within the first part,
    or across the seam. *)
Lemma strip_prefix_app_inv (p x y t : string) :
  strip_prefix p (x ++ y) = Some t ->
  (exists r, strip_prefix p x = Some r /\ t = r ++ y)
  \/ (exists p', p = x ++ p' /\ strip_prefix p' y = Some t).
Proof.
  revert x; induction p as [|a p IH]; intros x; simpl.
  - intros [= <-]. left. now exists x.
  - destruct x as [|b x]; simpl.
    + intros H. right. now exists (String a p).
    + destruct (Ascii.eqb_spec a b) as [->|]; [|discriminate].
      intros H. destruct (IH _ H) as [(r & Hr & ->) | (p' & -> & Hp)].
      * left. now exists r.
      * right. now exists p'.
Qed.

Lemma match_dev_app_Some (x y r : string) :
  match_dev x = Some r -> match_dev (x ++ y) = Some (r ++ y).
Proof.
  unfold match_dev.
  destruct (strip_prefix DEV_OPEN x) as [t|] eqn:E; [|discriminate].
  apply strip_prefix_Some in E; subst x.
  rewrite append_assoc, strip_prefix_app. apply find_close_app_Some.
Qed.

(** The head of the pattern is not found across the closing quote of a
    string: what follows the quote would have to be a device path. *)
Lemma strip_prefix_DEV_OPEN_closed (e y t : string) :
  strip_prefix DEV_OPEN (e ++ String dquote y) = Some t ->
  is_device_path y = false ->
  exists r, strip_prefix DEV_OPEN e = Some r /\ t = r ++ String dquote y.
Proof.
  intros H Hy.
  destruct (strip_prefix_app_inv _ _ _ _ H) as [(r & Hr & ->) | (p' & Hp & Hs)];
    [now exists r|].
  destruct p' as [|a p'].
  - simpl in Hs. injection Hs as <-. rewrite append_nil_r in Hp. subst e.
    exists "". split; [|reflexivity].
    rewrite <- (append_nil_r DEV_OPEN) at 2. apply strip_prefix_app.
  - exfalso. simpl in Hs.
    destruct (Ascii.eqb_spec a dquote) as [->|]; [|discriminate].
    destruct e as [|c e].
    + simpl in Hp. unfold DEV_OPEN in Hp. injection Hp as <-.
      unfold is_device_path in Hy. now rewrite Hs in Hy.
    + unfold DEV_OPEN in Hp. simpl in Hp. injection Hp as _ Hp.
      apply (f_equal quote_free) in Hp. rewrite quote_free_app in Hp.
      simpl in Hp. now rewrite andb_false_r in Hp.
Qed.

(** Where the pattern does not match in a closed string, it does not
    match when text that is no device path follows. *)
Lemma match_dev_closed_None (e b : string) :
  match_dev (e ++ String dquote "") = None ->
  newline_free e = true -> is_device_path b = false ->
  match_dev (e ++ String dquote b) = None.
Proof.
  intros H Hn Hb. unfold match_dev in *.
  destruct (strip_prefix DEV_OPEN (e ++ String dquote b)) as [t|] eqn:E;
    [|reflexivity].
  apply strip_prefix_DEV_OPEN_closed in E as (r & Hr & ->); [|assumption].
  apply strip_prefix_Some in Hr. subst e.
  rewrite append_assoc, strip_prefix_app in H.
  rewrite newline_free_app in Hn. apply andb_prop in Hn as [_ Hn].
  destruct (find_close_closed r Hn) as [C | (x' & C & _)]; congruence.
Qed.

(** What follows a match in a closed string is nothing, or again a
    closed string, a shorter one. *)
Lemma match_dev_closed_Some (e rest : string) :
  match_dev (e ++ String dquote "") = Some rest ->
  newline_free e = true ->
  rest = ""
  \/ exists e', rest = e' ++ String dquote ""
                /\ newline_free e' = true
                /\ (String.length e' < String.length e)%nat.
Proof.
  intros H Hn. unfold match_dev in H.
  destruct (strip_prefix DEV_OPEN (e ++ String dquote "")) as [t|] eqn:E;
    [|discriminate].
  apply strip_prefix_DEV_OPEN_closed in E as (r & Hr & ->); [|reflexivity].
  apply strip_prefix_Some in Hr. subst e.
  rewrite newline_free_app in Hn. apply andb_prop in Hn as [_ Hn].
  destruct (find_close_closed r Hn) as [C | (x' & C & Hx & Hl)].
  - left. congruence.
  - right. exists x'. repeat split; [congruence | assumption |].
    rewrite length_append. lia.
Qed.

(** The substitution treats a closed string apart from what follows
    it. *)
Lemma re_sub_dev_closed (e b : string) :
  newline_free e = true -> is_device_path b = false ->
  re_sub_dev (e ++ String dquote b)
  = re_sub_dev (e ++ String dquote "") ++ re_sub_dev b.
Proof.
  remember (String.length e) as n eqn:Hlen. revert e Hlen.
  induction n as [n IH] using lt_wf_ind. intros e -> Hn Hb.
  destruct (match_dev (e ++ String dquote "")) as [rest|] eqn:E.
  - rewrite (re_sub_dev_match _ _ E).
    pose proof (match_dev_app_Some _ b _ E) as E'.
    rewrite append_assoc in E'. simpl in E'.
    rewrite (re_sub_dev_match _ _ E'), append_assoc. f_equal.
    destruct (match_dev_closed_Some _ _ E Hn) as [-> | (e' & -> & Hn' & Hl)].
    + now rewrite re_sub_dev_nil.
    + rewrite append_assoc. simpl.
      now apply (IH (String.length e')).
  - pose proof (match_dev_closed_None _ b E Hn Hb) as E'.
    destruct e as [|c e].
    + cbn [append] in *.
      now rewrite (re_sub_dev_skip _ _ E'), (re_sub_dev_skip _ _ E), re_sub_dev_nil.
    + cbn [append newline_free String.length] in *.
      rewrite (re_sub_dev_skip _ _ E'), (re_sub_dev_skip _ _ E).
      cbn [append]. f_equal. apply andb_prop in Hn as [_ Hn].
      apply (IH (String.length e)); [lia | reflexivity | assumption..].
Qed.

(* ------------------------------------------------------------------ *)
(** ** What [json.dumps] writes for a string *)

Ltac each_char c :=
  destruct c as [[] [] [] [] [] [] [] []].

Lemma newline_free_escape_char (c : ascii) :
  newline_free (escape_char c) = true.
Proof. each_char c; reflexivity. Qed.

Lemma quote_free_escape_char (c : ascii) :
  c <> dquote -> quote_free (escape_char c) = true.
Proof. intros H. each_char c; try reflexivity. now elim H. Qed.

(** A character is written as itself or as an escape, which starts
    with a backslash. *)
Lemma escape_char_head (c : ascii) :
  escape_char c = String c "" \/ exists t, escape_char c = String backslash t.
Proof. each_char c; try (now left); right; eexists; reflexivity. Qed.

Lemma newline_free_escape (s : string) : newline_free (escape s) = true.
Proof.
  induction s as [|c s IH]; simpl; [reflexivity|].
  now rewrite newline_free_app, newline_free_escape_char, IH.
Qed.

Lemma quote_free_escape (s : string) :
  quote_free s = true -> quote_free (escape s) = true.
Proof.
  induction s as [|c s IH]; simpl; [reflexivity|].
  intros [Hc Hs]%andb_prop. rewrite quote_free_app, IH by assumption.
  rewrite quote_free_escape_char; [reflexivity|].
  intros ->. now rewrite Ascii.eqb_refl in Hc.
Qed.

(** A serialized string is treated apart from what follows it, as
    long as that is no device path. *)
Lemma re_sub_dev_token (s b : string) :
  is_device_path b = false ->
  re_sub_dev (encode_string s ++ b) = device_token s ++ re_sub_dev b.
Proof.
  intros Hb. unfold device_token, encode_string.
  change (String dquote (escape s ++ String dquote ""))
    with (String dquote (escape s) ++ String dquote "").
  rewrite append_assoc. cbn [append].
  change (String dquote (escape s ++ String dquote b))
    with (String dquote (escape s) ++ String dquote b).
  change (String dquote (escape s ++ String dquote ""))
    with (String dquote (escape s) ++ String dquote "").
  apply re_sub_dev_closed; [|assumption].
  cbn [newline_free]. now rewrite newline_free_escape.
Qed.

Lemma quote_free_uint (d : Decimal.uint) :
  quote_free (NilEmpty.string_of_uint d) = true.
Proof. induction d; simpl; auto. Qed.

Lemma quote_free_string_of_Z (z : Z) : quote_free (string_of_Z z) = true.
Proof.
  unfold string_of_Z, NilZero.string_of_int, NilZero.string_of_uint.
  destruct (Z.to_int z) as [d|d]; destruct d; simpl; auto using quote_free_uint;
    apply quote_free_uint.
Qed.

(* ------------------------------------------------------------------ *)
(** ** The substitution goes through [json.dumps] *)

Lemma re_sub_dev_concat {A} (f g : A -> string) (l : list A) :
  Forall (treated_apart f g) l ->
  forall b, is_device_path b = false ->
            re_sub_dev (String.concat ", " (map f l) ++ b)
            = String.concat ", " (map g l) ++ re_sub_dev b.
Proof.
  induction 1 as [|x l Hx Hl IH]; intros b Hb; [reflexivity|].
  destruct l as [|y l]; [now apply Hx|].
  change (String.concat ", " (map f (x :: y :: l)))
    with (f x ++ ", " ++ String.concat ", " (map f (y :: l))).
  change (String.concat ", " (map g (x :: y :: l)))
    with (g x ++ ", " ++ String.concat ", " (map g (y :: l))).
  rewrite !append_assoc. rewrite Hx by reflexivity.
  rewrite (re_sub_dev_plain ", ") by reflexivity.
  now rewrite (IH b Hb).
Qed.

Lemma re_sub_dev_dumps (v : json) :
  floats_printed v = true -> treated_apart json_dumps (dumps_with device_token) v.
Proof.
  induction v as [| [] | z | r | s | l IH | kv IH] using json_nested_ind;
    intros Hf b Hb; cbn [json_dumps dumps_with].
  - now apply re_sub_dev_plain.
  - now apply re_sub_dev_plain.
  - now apply re_sub_dev_plain.
  - apply re_sub_dev_plain, quote_free_string_of_Z.
  - now apply re_sub_dev_plain.
  - now apply re_sub_dev_token.
  - rewrite !append_assoc. rewrite (re_sub_dev_plain "[") by reflexivity.
    rewrite (re_sub_dev_concat json_dumps (dumps_with device_token)).
    + now rewrite (re_sub_dev_plain "]") by reflexivity.
    + cbn [floats_printed] in Hf. rewrite forallb_forall in Hf.
      rewrite Forall_forall in *. intros x Hx. apply IH; auto.
    + reflexivity.
  - rewrite !append_assoc. rewrite (re_sub_dev_plain "{") by reflexivity.
    rewrite (re_sub_dev_concat
               (fun m => encode_string (fst m) ++ ": " ++ json_dumps (snd m))
               (fun m => device_token (fst m) ++ ": "
                         ++ dumps_with device_token (snd m))).
    + now rewrite (re_sub_dev_plain "}") by reflexivity.
    + cbn [floats_printed] in Hf. rewrite forallb_forall in Hf.
      rewrite Forall_forall in *. intros m Hm b' Hb'.
      rewrite !append_assoc. rewrite re_sub_dev_token by reflexivity.
      rewrite (re_sub_dev_plain ": ") by reflexivity.
      now rewrite (IH m Hm (Hf m Hm) b' Hb').
    + reflexivity.
Qed.

(** The text put in the command is the serialization of the pillar in
    which every string, key or value, is written after substitution in
    it alone. *)
Lemma pillar_text_dumps_with (pillar : json) :
  floats_printed pillar = true ->
  pillar_text pillar = dumps_with device_token pillar.
Proof.
  intros Hf. unfold pillar_text.
  rewrite <- (append_nil_r (json_dumps pillar)).
  rewrite (re_sub_dev_dumps pillar Hf "" eq_refl).
  now rewrite re_sub_dev_nil, append_nil_r.
Qed.

(** A string without a double quote that names a device becomes the
    placeholder, whatever follows /dev/ in it. *)
Lemma device_token_device (s : string) :
  quote_free s = true -> device_token ("/dev/" ++ s) = DEV_SDA2.
Proof.
  intros Hs. unfold device_token, encode_string.
  assert (E : match_dev (String dquote (escape ("/dev/" ++ s) ++ String dquote ""))
              = Some "").
  { change (String dquote (escape ("/dev/" ++ s) ++ String dquote ""))
      with (DEV_OPEN ++ (escape s ++ String dquote "")).
    unfold match_dev. rewrite strip_prefix_app.
    destruct (find_close_closed (escape s) (newline_free_escape s))
      as [C | (x' & C & _)]; [exact C|].
    exfalso. apply quote_free_escape in Hs. revert C Hs. clear.
    induction (escape s) as [|c e IH]; simpl.
    - intros [= C]. destruct x'; discriminate.
    - destruct (Ascii.eqb c dquote); [discriminate|].
      destruct (Ascii.eqb c newline); [discriminate|]. simpl. exact IH. }
  rewrite (re_sub_dev_match _ _ E), re_sub_dev_nil. apply append_nil_r.
Qed.

(** A character of a serialized string that is neither a double quote
    nor a backslash stands for itself. *)
Lemma escape_head_plain (a : ascii) (s t r : string) :
  a <> dquote -> a <> backslash ->
  escape s ++ String dquote t = String a r ->
  exists s', s = String a s' /\ escape s' ++ String dquote t = r.
Proof.
  intros Hq Hb H. destruct s as [|c s]; simpl in H.
  - injection H as H _. now elim Hq.
  - rewrite append_assoc in H.
    destruct (escape_char_head c) as [E | (u & E)]; rewrite E in H; simpl in H.
    + injection H as -> <-. now exists s.
    + injection H as H _. now elim Hb.
Qed.

Lemma is_device_path_escape (s : string) :
  is_device_path s = false ->
  is_device_path (escape s ++ String dquote "") = false.
Proof.
  intros Hs. unfold is_device_path at 1.
  destruct (strip_prefix "/dev/" (escape s ++ String dquote "")) as [r|] eqn:E;
    [|reflexivity].
  exfalso. apply strip_prefix_Some in E. simpl in E.
  apply escape_head_plain in E as (s1 & -> & E); [|discriminate..].
  apply escape_head_plain in E as (s2 & -> & E); [|discriminate..].
  apply escape_head_plain in E as (s3 & -> & E); [|discriminate..].
  apply escape_head_plain in E as (s4 & -> & E); [|discriminate..].
  apply escape_head_plain in E as (s5 & -> & E); [|discriminate..].
  discriminate Hs.
Qed.

(** A string without a double quote that names no device is written
    as [json.dumps] writes it. *)
Lemma device_token_other (s : string) :
  quote_free s = true -> is_device_path s = false ->
  device_token s = encode_string s.
Proof.
  intros Hq Hd. unfold device_token, encode_string.
  rewrite re_sub_dev_skip.
  - f_equal. rewrite re_sub_dev_plain by now apply quote_free_escape.
    reflexivity.
  - apply is_device_path_escape in Hd. unfold is_device_path in Hd.
    change (match_dev (String dquote (escape s ++ String dquote "")))
      with (match strip_prefix "/dev/" (escape s ++ String dquote "") with
            | Some r => find_close r
            | None => None
            end).
    now destruct (strip_prefix "/dev/" (escape s ++ String dquote "")).
Qed.

(* ================================================================== *)
(** * Computations: values and executed commands *)

Lemma value_bind {A B} (m : M A) (f : A -> M B) :
  value (bind m f) = rbind (value m) (fun a => value (f a)).
Proof. unfold value, bind. now destruct (fst m). Qed.

Lemma executed_bind {A B} (m : M A) (f : A -> M B) :
  executed (bind m f)
  = (executed m ++ match value m with
                   | Ok a => executed (f a)
                   | Raise _ => []
                   end)%list.
Proof.
  unfold executed, value, bind.
  destruct (fst m); simpl; [reflexivity | now rewrite app_nil_r].
Qed.

Lemma value_lift {A} (r : result A) : value (lift r) = r.
Proof. reflexivity. Qed.

Lemma bind_ret {A B} (a : A) (f : A -> M B) : bind (ret a) f = f a.
Proof. unfold bind, ret. simpl. now destruct (f a). Qed.

Lemma bind_lift_Ok {A B} (a : A) (f : A -> M B) : bind (lift (Ok a)) f = f a.
Proof. exact (bind_ret a f). Qed.

Lemma bind_lift_Raise {A B} (e : exn) (f : A -> M B) :
  bind (lift (Raise e)) f = raise e.
Proof. reflexivity. Qed.

Lemma value_bind_Ok {A B} (m : M A) (f : A -> M B) (b : B) :
  value (bind m f) = Ok b ->
  exists a, value m = Ok a /\ value (f a) = Ok b.
Proof.
  rewrite value_bind. destruct (value m) as [a|e]; simpl; [|discriminate].
  intros H. now exists a.
Qed.

Lemma bind_Raise_eq {A B} (m : M A) (f : A -> M B) (e : exn) (w : list command) :
  m = (Raise e, w) -> bind m f = (Raise e, w).
Proof. now intros ->. Qed.

Lemma bind_value_Ok {A B} (m : M A) (f : A -> M B) (a : A) :
  value m = Ok a -> value (bind m f) = value (f a).
Proof. intros H. now rewrite value_bind, H. Qed.

Lemma bind_value_Raise {A B} (m : M A) (f : A -> M B) (e : exn) :
  value m = Raise e -> value (bind m f) = Raise e.
Proof. intros H. now rewrite value_bind, H. Qed.

(* ================================================================== *)
(** * The counter *)

(** A record on which the test of the loop is false leaves the
    variables of the loop as they are and runs nothing. *)
Lemma inner_state_plain (run : json -> string -> json -> M Z) (saltenv : string)
    (vars : Z * json) (state : json) :
  is_inner_state state = Ok false ->
  inner_state run saltenv vars state = ret vars.
Proof.
  intros H. unfold inner_state. destruct vars as [state_count pillar].
  now rewrite H, bind_lift_Ok.
Qed.

Lemma foldM_inner_state_plain (run : json -> string -> json -> M Z)
    (saltenv : string) (vars : Z * json) (batch : list json) :
  Forall (fun state => is_inner_state state = Ok false) batch ->
  foldM (inner_state run saltenv) vars batch = ret vars.
Proof.
  induction 1 as [|state batch H _ IH]; [reflexivity|].
  cbn [foldM]. now rewrite (inner_state_plain _ _ _ _ H), bind_ret.
Qed.

Lemma py_eq_str_true (v : json) (text : string) :
  py_eq_str v text = true <-> v = JString text.
Proof.
  destruct v; cbn; try (split; [discriminate | intros [=]]).
  rewrite String.eqb_eq. split; [now intros -> | now intros [= ->]].
Qed.

(** The test of the loop is false on a mapping without the key
    state.sls, and on one whose value under state is not module. *)
Lemma is_inner_state_false (members : list (string * json)) :
  lookup "state.sls" members = None
  \/ (exists kind, lookup "state" members = Some kind
                   /\ kind <> JString "module") ->
  is_inner_state (JObject members) = Ok false.
Proof.
  unfold is_inner_state. cbn [py_contains py_getitem rbind].
  intros [H | (kind & Hk & Hm)].
  - now rewrite H.
  - destruct (lookup "state.sls" members); [|reflexivity].
    rewrite Hk. cbn [rbind]. f_equal.
    destruct (py_eq_str kind "module") eqn:E; [|reflexivity].
    apply py_eq_str_true in E. contradiction.
Qed.

(** What [run_lowstate] returns once its command has rendered. *)
Lemma run_lowstate_value (salt_call : command -> outcome) (depth : nat)
    (state_path : json) (saltenv : string) (pillar state_data : json)
    (batch : list json) :
  value (execute_command salt_call
           (LOWSTATE_SLS_CMD state_path saltenv (pillar_text pillar)))
  = Ok state_data ->
  py_getitem state_data "local" = Ok (JArray batch) ->
  value (run_lowstate salt_call (S depth) state_path saltenv pillar)
  = (nested <~ value (count_inner_states salt_call depth saltenv state_data) ;;
     Ok (Z.of_nat (List.length batch) + nested)).
Proof.
  intros Hcmd Hlocal.
  cbn [run_lowstate]. fold (pillar_text pillar).
  rewrite (bind_value_Ok _ _ _ Hcmd), Hlocal, bind_lift_Ok.
  cbn [py_len]. rewrite bind_lift_Ok, value_bind.
  unfold count_inner_states.
  now destruct (value (count_inner_states_with _ saltenv state_data)).
Qed.

Lemma count_inner_states_plain (salt_call : command -> outcome) (depth : nat)
    (saltenv : string) (states : json) (batch : list json) :
  py_getitem states "local" = Ok (JArray batch) ->
  Forall (fun state => is_inner_state state = Ok false) batch ->
  count_inner_states salt_call depth saltenv states = ret 0.
Proof.
  intros Hlocal Hplain.
  unfold count_inner_states, count_inner_states_with.
  rewrite Hlocal, bind_lift_Ok. cbn [py_iter]. rewrite bind_lift_Ok.
  now rewrite foldM_inner_state_plain, bind_ret.
Qed.

(** C1. Composition law: when the command of [run_lowstate] renders a
    batch, the call returns the length of the batch plus what
    [count_inner_states] returns for it, and raises what it raises; and
    for a batch on no record of which the test of the loop holds,
    [count_inner_states] returns 0, no command being run.  The test is
    false on a mapping that has no key state.sls, and on one whose
    value under state is not module. *)
Theorem composition_law :
  (forall salt_call depth state_path saltenv pillar state_data batch,
      value (execute_command salt_call
               (LOWSTATE_SLS_CMD state_path saltenv (pillar_text pillar)))
      = Ok state_data ->
      py_getitem state_data "local" = Ok (JArray batch) ->
      value (run_lowstate salt_call (S depth) state_path saltenv pillar)
      = (nested <~ value (count_inner_states salt_call depth saltenv state_data) ;;
         Ok (Z.of_nat (List.length batch) + nested)))
  /\ (forall salt_call depth saltenv states batch,
         py_getitem states "local" = Ok (JArray batch) ->
         Forall (fun state => is_inner_state state = Ok false) batch ->
         count_inner_states salt_call depth saltenv states = ret 0)
  /\ (forall members,
         lookup "state.sls" members = None
         \/ (exists kind, lookup "state" members = Some kind
                          /\ kind <> JString "module") ->
         is_inner_state (JObject members) = Ok false).
Proof.
  split; [exact run_lowstate_value|].
  split; [exact count_inner_states_plain | exact is_inner_state_false].
Qed.

(** Scenario A: three plain records count for three, none below. *)
Lemma composition_law_witness :
  value (run_lowstate salt_call_A 1%nat (JString "os_setup") "base" empty_dict) = Ok 3
  /\ count_inner_states salt_call_A 0%nat "base" (local_of batch_A) = ret 0
  /\ is_inner_state (plain "a") = Ok false.
Proof.
  destruct composition_law as (H1 & H2 & H3).
  split; [|split].
  - rewrite (H1 salt_call_A 0%nat (JString "os_setup") "base"
               empty_dict (local_of batch_A) batch_A eq_refl eq_refl).
    reflexivity.
  - apply (H2 salt_call_A 0%nat "base" (local_of batch_A) batch_A eq_refl).
    repeat constructor.
  - apply H3. left. reflexivity.
Defined.

(* ================================================================== *)
(** * The pillar handed to the renderer *)

(** C7. The normalization is idempotent: substituting once more in
    the text obtained from the serialized pillar changes nothing. *)
Theorem normalization_idempotent (pillar : json) :
  re_sub_dev (re_sub_dev (json_dumps pillar)) = re_sub_dev (json_dumps pillar)
  /\ re_sub_dev (pillar_text pillar) = pillar_text pillar.
Proof. split; apply re_sub_dev_idempotent. Qed.

(* ================================================================== *)
(** * Failures of the renderer abort the scan *)

Section Aborts.
Variable salt_call : command -> outcome.

Lemma aborts_lift {A} (r : result A) : aborts_on_failure salt_call (lift r).
Proof. intros cmd []. Qed.

Lemma aborts_ret {A} (a : A) : aborts_on_failure salt_call (ret a).
Proof. intros cmd []. Qed.

Lemma aborts_raise {A} (e : exn) : aborts_on_failure salt_call (@raise A e).
Proof. intros cmd []. Qed.

Lemma executed_execute_command (cmd : command) :
  executed (execute_command salt_call cmd) = [cmd].
Proof.
  unfold execute_command. rewrite executed_bind. cbn [tell executed value fst snd].
  now destruct (salt_call cmd) as [| | returncode []].
Qed.

Lemma aborts_execute_command (cmd : command) :
  aborts_on_failure salt_call (execute_command salt_call cmd).
Proof.
  intros c Hin Hfail. rewrite executed_execute_command in Hin.
  destruct Hin as [<- | []]. exact Hfail.
Qed.

Lemma aborts_bind {A B} (m : M A) (f : A -> M B) :
  aborts_on_failure salt_call m ->
  (forall a, aborts_on_failure salt_call (f a)) ->
  aborts_on_failure salt_call (bind m f).
Proof.
  intros Hm Hf cmd Hin Hfail. rewrite executed_bind in Hin.
  rewrite value_bind. apply in_app_or in Hin as [Hin | Hin].
  - destruct (Hm cmd Hin Hfail) as [e ->]. now exists e.
  - destruct (value m) as [a|e]; [|now exists e].
    exact (Hf a cmd Hin Hfail).
Qed.

Lemma aborts_foldM {A B} (f : A -> B -> M A) (l : list B) :
  (forall a x, aborts_on_failure salt_call (f a x)) ->
  forall a, aborts_on_failure salt_call (foldM f a l).
Proof.
  intros Hf. induction l as [|x l IH]; intros a; cbn [foldM].
  - apply aborts_ret.
  - apply aborts_bind; [apply Hf | exact IH].
Qed.

Create HintDb aborts.
#[local] Hint Resolve aborts_lift aborts_ret aborts_raise aborts_execute_command
  : aborts.
#[local] Hint Extern 2 (aborts_on_failure _ (bind _ _)) =>
  apply aborts_bind; [|intro] : aborts.
#[local] Hint Extern 2 (aborts_on_failure _ (foldM _ _ _)) =>
  apply aborts_foldM; intros : aborts.

Lemma aborts_inner_state (run : json -> string -> json -> M Z)
    (saltenv : string) (vars : Z * json) (state : json) :
  (forall name env pillar, aborts_on_failure salt_call (run name env pillar)) ->
  aborts_on_failure salt_call (inner_state run saltenv vars state).
Proof.
  intros Hrun. unfold inner_state. destruct vars as [state_count pillar].
  apply aborts_bind; [auto with aborts|]. intros []; auto 20 with aborts.
Qed.

Lemma aborts_count_inner_states_with (run : json -> string -> json -> M Z)
    (saltenv : string) (states : json) :
  (forall name env pillar, aborts_on_failure salt_call (run name env pillar)) ->
  aborts_on_failure salt_call (count_inner_states_with run saltenv states).
Proof.
  intros Hrun. unfold count_inner_states_with.
  pose proof (fun vars state => aborts_inner_state run saltenv vars state Hrun).
  auto 20 with aborts.
Qed.

Lemma aborts_run_lowstate (depth : nat) (state_path : json) (saltenv : string)
    (pillar : json) :
  aborts_on_failure salt_call (run_lowstate salt_call depth state_path saltenv pillar).
Proof.
  revert state_path saltenv pillar.
  induction depth as [|depth IH]; intros state_path saltenv pillar;
    cbn [run_lowstate]; [apply aborts_raise|].
  pose proof (fun env states =>
                aborts_count_inner_states_with _ env states IH).
  auto 20 with aborts.
Qed.

Lemma aborts_scan (depth : nat) (low_states saltenvs : list string) :
  aborts_on_failure salt_call (scan salt_call depth low_states saltenvs).
Proof.
  unfold scan, count_inner_states.
  pose proof (aborts_run_lowstate depth).
  pose proof (fun env states =>
                aborts_count_inner_states_with _ env states
                  (aborts_run_lowstate depth)).
  auto 20 with aborts.
Qed.

End Aborts.

(** C4, as stated, fails on a process that exits with a status other
    than zero after printing valid JSON: [execute_command] returns
    what was printed, and the scan returns a total. *)
Lemma nonzero_exit_status_is_not_a_failure :
  salt_call_status_1 (LOWSTATE_CMD "base") = Exited 1 (Decodes (local_of []))
  /\ value (execute_command salt_call_status_1 (LOWSTATE_CMD "base"))
     = Ok (local_of [])
  /\ value (main salt_call_status_1 1%nat) = Ok 0.
Proof. repeat split. Qed.

(** C4, amended. [execute_command] raises exactly when the process
    could not be launched or what it printed does not decode, whatever
    its exit status; and a scan in which a command did not render
    raises, so that it returns no total. *)
Theorem render_failure_aborts_scan :
  (forall salt_call cmd,
      render_fails salt_call cmd
      <-> (salt_call cmd = BadCommandLine
           \/ salt_call cmd = NotStarted
           \/ exists returncode, salt_call cmd = Exited returncode Undecodable))
  /\ (forall salt_call depth low_states saltenvs cmd,
         In cmd (executed (scan salt_call depth low_states saltenvs)) ->
         render_fails salt_call cmd ->
         exists e, value (scan salt_call depth low_states saltenvs) = Raise e)
  /\ (forall salt_call depth cmd,
         In cmd (executed (main salt_call depth)) ->
         render_fails salt_call cmd ->
         exists e, value (main salt_call depth) = Raise e).
Proof.
  split; [|split].
  - intros salt_call cmd. unfold render_fails, execute_command.
    rewrite value_bind. cbn [tell value fst rbind].
    destruct (salt_call cmd) as [| | returncode [data|]]; cbn; split.
    + auto.
    + intros _. now exists ValueError.
    + auto.
    + intros _. now exists OSError.
    + intros [e H]. discriminate.
    + intros [H | [H | [r H]]]; discriminate.
    + intros _. right. right. now exists returncode.
    + intros _. now exists ValueError.
  - intros salt_call depth low_states saltenvs. apply aborts_scan.
  - intros salt_call depth. apply aborts_scan.
Qed.

(** A render that prints text that does not decode, in the scan of the
    script. *)
Lemma render_failure_aborts_scan_witness :
  render_fails salt_call_undecodable (LOWSTATE_CMD "base")
  /\ (exists e, value (scan salt_call_undecodable 1%nat LOW_STATES SALTENVS)
                = Raise e)
  /\ (exists e, value (main salt_call_undecodable 1%nat) = Raise e).
Proof.
  pose (salt_call := salt_call_undecodable).
  destruct render_failure_aborts_scan as (H1 & H2 & H3).
  assert (F : render_fails salt_call (LOWSTATE_CMD "base")).
  { apply H1. right. right. now exists 0. }
  split; [exact F|]. split.
  - apply (H2 salt_call 1%nat LOW_STATES SALTENVS (LOWSTATE_CMD "base")); [|exact F].
    cbn. auto.
  - apply (H3 salt_call 1%nat (LOWSTATE_CMD "base")); [|exact F].
    cbn. auto.
Defined.

(** C5, as stated, fails: what decodes without the key is returned by
    [execute_command] as it is. *)
Lemma missing_key_is_not_rejected_by_execute_command :
  py_getitem no_local "local" = Raise KeyError
  /\ value (execute_command salt_call_no_local (LOWSTATE_CMD "base")) = Ok no_local.
Proof. split; reflexivity. Qed.

(* ================================================================== *)
(** * The pillar of a nested render *)

(** With a second entry that is a mapping, the pillar is the one it
    holds under the key pillar, the empty mapping when it has none. *)
Lemma inner_pillar_second (pillar first : json) (second : list (string * json))
    (rest : list json) :
  inner_pillar pillar (JArray (first :: JObject second :: rest))
  = Ok (match lookup "pillar" second with
        | Some own => own
        | None => empty_dict
        end).
Proof.
  unfold inner_pillar. cbn [py_len rbind List.length].
  replace (1 <? Z.of_nat (S (S (List.length rest)))) with true
    by (symmetry; apply Z.ltb_lt; lia).
  cbn. now destruct (lookup "pillar" second).
Qed.

(** With a single entry, the pillar is the one the variable held. *)
Lemma inner_pillar_single (pillar first : json) :
  inner_pillar pillar (JArray [first]) = Ok pillar.
Proof. reflexivity. Qed.

(** C2 fails on the code. With a second entry the pillar is the one
    that entry holds, the empty mapping when it holds none; but a
    record whose list under state.sls has one entry is rendered with
    the pillar the variable holds from a record before it: here the
    module two is rendered with the pillar of the record that invokes
    the module one, while alone it is rendered with the empty one. *)
Theorem single_entry_record_inherits_pillar :
  (forall pillar first second rest,
      inner_pillar pillar (JArray (first :: JObject second :: rest))
      = Ok (match lookup "pillar" second with
            | Some own => own
            | None => empty_dict
            end))
  /\ (forall pillar first, inner_pillar pillar (JArray [first]) = Ok pillar)
  /\ executed (count_inner_states salt_call_empty 1%nat "base"
                 (local_of [with_pillar; without_pillar]))
     = [LOWSTATE_SLS_CMD (JString "one") "base" (dq "{'k': 'v'}");
        LOWSTATE_SLS_CMD (JString "two") "base" (dq "{'k': 'v'}")]
  /\ executed (count_inner_states salt_call_empty 1%nat "base"
                 (local_of [without_pillar]))
     = [LOWSTATE_SLS_CMD (JString "two") "base" "{}"].
Proof.
  split; [exact inner_pillar_second|].
  split; [exact inner_pillar_single | split; reflexivity].
Qed.


(* ================================================================== *)
(** * A call that returns returns the same with more depth allowed *)

Lemma bind_ext_Ok {A B} (m : M A) (f g : A -> M B) (b : B) :
  value (bind m f) = Ok b ->
  (forall a, value m = Ok a -> value (f a) = Ok b -> g a = f a) ->
  bind m g = bind m f.
Proof.
  intros H Hfg. apply value_bind_Ok in H as (a & Ha & Hb).
  unfold bind. unfold value in Ha. rewrite Ha. now rewrite (Hfg a Ha Hb).
Qed.

Lemma bind_ext_head {A B} (m m' : M A) (f : A -> M B) :
  m' = m -> bind m' f = bind m f.
Proof. now intros ->. Qed.

Lemma foldM_ext_Ok {A B} (f g : A -> B -> M A) (l : list B) :
  (forall a x b, value (f a x) = Ok b -> g a x = f a x) ->
  forall a b, value (foldM f a l) = Ok b -> foldM g a l = foldM f a l.
Proof.
  intros Hfg. induction l as [|x l IH]; intros a b H; [reflexivity|].
  cbn [foldM] in *. pose proof H as H'.
  apply value_bind_Ok in H' as (a' & Ha' & Hb).
  rewrite (Hfg _ _ _ Ha'). apply (bind_ext_Ok _ _ _ b H).
  intros a'' _ H''. now apply (IH a'' b).
Qed.

Lemma inner_state_extends (run run' : json -> string -> json -> M Z)
    (saltenv : string) (vars vars' : Z * json) (state : json) :
  extends run run' ->
  value (inner_state run saltenv vars state) = Ok vars' ->
  inner_state run' saltenv vars state = inner_state run saltenv vars state.
Proof.
  intros Hrun H. unfold inner_state in *. destruct vars as [state_count pillar].
  apply (bind_ext_Ok _ _ _ _ H). intros [] _ H1; [|reflexivity].
  apply (bind_ext_Ok _ _ _ _ H1). intros _ _ H2.
  apply (bind_ext_Ok _ _ _ _ H2). intros sls _ H3.
  apply (bind_ext_Ok _ _ _ _ H3). intros first _ H4.
  apply (bind_ext_Ok _ _ _ _ H4). intros mods _ H5.
  apply (bind_ext_Ok _ _ _ _ H5). intros pillar' _ H6.
  apply (bind_ext_Ok _ _ _ _ H6). intros names _ H7.
  apply value_bind_Ok in H7 as (count & H7 & _).
  apply bind_ext_head. apply (foldM_ext_Ok _ _ _) with (b := count); [|exact H7].
  intros c name b Hb. apply value_bind_Ok in Hb as (k & Hk & _).
  apply bind_ext_head. exact (Hrun _ _ _ _ Hk).
Qed.

Lemma count_inner_states_with_extends (run run' : json -> string -> json -> M Z)
    (saltenv : string) (states : json) (n : Z) :
  extends run run' ->
  value (count_inner_states_with run saltenv states) = Ok n ->
  count_inner_states_with run' saltenv states
  = count_inner_states_with run saltenv states.
Proof.
  intros Hrun H. unfold count_inner_states_with in *.
  apply (bind_ext_Ok _ _ _ _ H). intros local _ H1.
  apply (bind_ext_Ok _ _ _ _ H1). intros batch _ H2.
  apply value_bind_Ok in H2 as (vars & H2 & _).
  apply bind_ext_head. apply (foldM_ext_Ok _ _ _) with (b := vars); [|exact H2].
  intros a x b Hb. exact (inner_state_extends _ _ _ _ _ _ Hrun Hb).
Qed.

Lemma run_lowstate_S (salt_call : command -> outcome) (depth : nat) :
  extends (run_lowstate salt_call depth) (run_lowstate salt_call (S depth)).
Proof.
  induction depth as [|depth IH]; intros state_path saltenv pillar k H;
    [discriminate|].
  change (run_lowstate salt_call (S (S depth)) state_path saltenv pillar)
    with (state_data <- execute_command salt_call
                          (LOWSTATE_SLS_CMD state_path saltenv (pillar_text pillar)) ;;
          local <- lift (py_getitem state_data "local") ;;
          n <- lift (py_len local) ;;
          k <- count_inner_states_with (run_lowstate salt_call (S depth))
                 saltenv state_data ;;
          ret (0 + n + k)).
  change (run_lowstate salt_call (S depth) state_path saltenv pillar)
    with (state_data <- execute_command salt_call
                          (LOWSTATE_SLS_CMD state_path saltenv (pillar_text pillar)) ;;
          local <- lift (py_getitem state_data "local") ;;
          n <- lift (py_len local) ;;
          k <- count_inner_states_with (run_lowstate salt_call depth)
                 saltenv state_data ;;
          ret (0 + n + k)) in *.
  apply (bind_ext_Ok _ _ _ _ H). intros state_data _ H1.
  apply (bind_ext_Ok _ _ _ _ H1). intros local _ H2.
  apply (bind_ext_Ok _ _ _ _ H2). intros n _ H3.
  apply value_bind_Ok in H3 as (m & H3 & _).
  apply bind_ext_head.
  exact (count_inner_states_with_extends _ _ _ _ _ IH H3).
Qed.

Lemma run_lowstate_deeper (salt_call : command -> outcome) (depth more : nat) :
  extends (run_lowstate salt_call depth) (run_lowstate salt_call (more + depth)).
Proof.
  induction more as [|more IH]; intros state_path saltenv pillar k H;
    [reflexivity|].
  cbn [Nat.add]. rewrite <- (IH _ _ _ _ H).
  apply (run_lowstate_S salt_call (more + depth) _ _ _ k).
  now rewrite (IH _ _ _ _ H).
Qed.

Lemma count_inner_states_deeper (salt_call : command -> outcome)
    (depth more : nat) (saltenv : string) (states : json) (n : Z) :
  value (count_inner_states salt_call depth saltenv states) = Ok n ->
  count_inner_states salt_call (more + depth) saltenv states
  = count_inner_states salt_call depth saltenv states.
Proof.
  apply count_inner_states_with_extends, run_lowstate_deeper.
Qed.

(* ================================================================== *)
(** * Detection and expansion of nested invocations *)

(** On a mapping, the test of the loop holds exactly when the key
    state.sls is present and the value under state is module. *)
Lemma is_inner_state_true (members : list (string * json)) :
  is_inner_state (JObject members) = Ok true
  <-> (lookup "state.sls" members <> None
       /\ lookup "state" members = Some (JString "module")).
Proof.
  unfold is_inner_state. cbn [py_contains py_getitem rbind].
  destruct (lookup "state.sls" members) as [sls|]; cbn [rbind].
  - destruct (lookup "state" members) as [kind|]; cbn [rbind].
    + split.
      * intros [= H]. apply py_eq_str_true in H. subst kind.
        split; [discriminate | reflexivity].
      * intros [_ [= ->]]. reflexivity.
    + split; [discriminate | intros [_ H]; discriminate].
  - split; [discriminate | intros [H _]; now elim H].
Qed.

(** Summing what a function returns over a list. *)
Lemma foldM_sum {B R} (g : B -> M Z) (h : R -> Z) (l : list B) (rs : list R) :
  Forall2 (fun x r => value (g x) = Ok (h r)) l rs ->
  forall count,
    value (foldM (fun count x => k <- g x ;; ret (count + k)) count l)
    = Ok (count + fold_right (fun r acc => h r + acc) 0 rs).
Proof.
  induction 1 as [|x r l rs Hx _ IH]; intros count; cbn [foldM fold_right].
  - cbn. now rewrite Z.add_0_r.
  - rewrite value_bind, value_bind, Hx. cbn [rbind ret value fst].
    rewrite IH. f_equal. lia.
Qed.

(** A command that renders makes [run_lowstate] return, one level
    up, the length of the batch plus what is counted below it. *)
Lemma run_lowstate_renders (salt_call : command -> outcome) (depth : nat)
    (state_path : json) (saltenv : string) (pillar : json)
    (batch : list json) (nested : Z) :
  renders salt_call depth
    (LOWSTATE_SLS_CMD state_path saltenv (pillar_text pillar)) saltenv batch nested ->
  value (run_lowstate salt_call (S depth) state_path saltenv pillar)
  = Ok (Z.of_nat (List.length batch) + nested).
Proof.
  intros (state_data & Hcmd & Hlocal & Hn).
  now rewrite (run_lowstate_value _ _ _ _ _ _ _ Hcmd Hlocal), Hn.
Qed.



(** A turn of the loop on a record that invokes modules: the sum,
    over the names under mods, of what [run] returns. *)
Lemma inner_state_invocation (run : json -> string -> json -> M Z)
    (saltenv : string) (state_count : Z) (pillar : json)
    (members first : list (string * json)) (name : json)
    (sls names : list json) (pillar' : json) :
  lookup "state.sls" members = Some (JArray (JObject first :: sls)) ->
  lookup "state" members = Some (JString "module") ->
  lookup "name" members = Some name ->
  lookup "mods" first = Some (JArray names) ->
  inner_pillar pillar (JArray (JObject first :: sls)) = Ok pillar' ->
  inner_state run saltenv (state_count, pillar) (JObject members)
  = (state_count' <- foldM (fun count module =>
                              k <- run module saltenv pillar' ;;
                              ret (count + k))
                           state_count names ;;
     ret (state_count', pillar')).
Proof.
  intros Hsls Hstate Hname Hmods Hpillar.
  assert (T : is_inner_state (JObject members) = Ok true).
  { apply is_inner_state_true. rewrite Hsls, Hstate. split; [discriminate|reflexivity]. }
  unfold inner_state. rewrite T, bind_lift_Ok.
  cbn [py_getitem]. rewrite Hname, Hsls, !bind_lift_Ok.
  cbn [py_index nth_error]. rewrite bind_lift_Ok.
  cbn [py_getitem]. rewrite Hmods, bind_lift_Ok, Hpillar, bind_lift_Ok.
  cbn [py_iter]. now rewrite bind_lift_Ok.
Qed.




(* ================================================================== *)
(** * The total of the scan *)

Lemma scan_value (salt_call : command -> outcome) (depth : nat)
    (low_states saltenvs : list string) (roots envs : list (list json * Z)) :
  Forall2 (fun state r =>
             renders salt_call depth
               (LOWSTATE_SLS_CMD (JString state) "base" "{}") "base"
               (fst r) (snd r))
          low_states roots ->
  Forall2 (fun saltenv r =>
             renders salt_call depth (LOWSTATE_CMD saltenv) saltenv
               (fst r) (snd r))
          saltenvs envs ->
  value (scan salt_call (S depth) low_states saltenvs)
  = Ok (total roots + total envs).
Proof.
  intros Hroots Henvs. unfold scan. rewrite value_bind.
  rewrite (foldM_sum _ (fun r => Z.of_nat (List.length (fst r)) + snd r)
             low_states roots).
  2:{ eapply Forall2_impl; [|exact Hroots]. intros state r H.
      now apply run_lowstate_renders. }
  cbn [rbind]. fold (total roots). rewrite Z.add_0_l.
  generalize (total roots) as count.
  induction Henvs as [|saltenv r saltenvs envs Hr _ IH]; intros count;
    cbn [foldM total fold_right].
  - cbn. now rewrite Z.add_0_r.
  - destruct Hr as (state_data & Hcmd & Hlocal & Hn).
    rewrite value_bind, (bind_value_Ok _ _ _ Hcmd), Hlocal, bind_lift_Ok.
    cbn [py_len]. rewrite bind_lift_Ok, value_bind.
    change (S depth) with (1 + depth)%nat at 1.
    rewrite (count_inner_states_deeper _ _ _ _ _ _ Hn), Hn.
    cbn [rbind ret value fst]. rewrite IH. f_equal. fold (total envs). lia.
Qed.

(** C9. The scan returns one total: over the root modules, rendered
    with the empty pillar in the environment base, and over the
    environments, rendered as full lowstates, the sum of the length of
    each rendered batch and of what is counted below it; so does
    [main] over [LOW_STATES] and [SALTENVS]. *)
Theorem scan_grand_total :
  (forall salt_call depth low_states saltenvs roots envs,
      Forall2 (fun state r =>
                 renders salt_call depth
                   (LOWSTATE_SLS_CMD (JString state) "base" (pillar_text empty_dict))
                   "base" (fst r) (snd r))
              low_states roots ->
      Forall2 (fun saltenv r =>
                 renders salt_call depth (LOWSTATE_CMD saltenv) saltenv
                   (fst r) (snd r))
              saltenvs envs ->
      value (scan salt_call (S depth) low_states saltenvs)
      = Ok (total roots + total envs))
  /\ (forall salt_call depth roots envs,
         Forall2 (fun state r =>
                    renders salt_call depth
                      (LOWSTATE_SLS_CMD (JString state) "base"
                         (pillar_text empty_dict))
                      "base" (fst r) (snd r))
                 LOW_STATES roots ->
         Forall2 (fun saltenv r =>
                    renders salt_call depth (LOWSTATE_CMD saltenv) saltenv
                      (fst r) (snd r))
                 SALTENVS envs ->
         value (main salt_call (S depth)) = Ok (total roots + total envs)).
Proof.
  split.
  - exact scan_value.
  - intros salt_call depth. exact (scan_value salt_call depth LOW_STATES SALTENVS).
Qed.

(** On the machine of scenario B the root module counts for 2 + 4 and
    each of the two environments for 2 + 4. *)
Lemma scan_grand_total_witness :
  value (scan salt_call_B 2%nat ["os_setup"] ["base"])
  = Ok (total [(batch_B, 4)] + total [(batch_B, 4)])
  /\ value (main salt_call_B 2%nat)
     = Ok (total [(batch_B, 4)] + total [(batch_B, 4); (batch_B, 4)]).
Proof.
  destruct scan_grand_total as (H1 & H2).
  split.
  - apply H1.
    + constructor; [|constructor].
      exists (local_of batch_B). repeat split.
    + constructor; [|constructor].
      exists (local_of batch_B). repeat split.
  - apply H2.
    + constructor; [|constructor].
      exists (local_of batch_B). repeat split.
    + constructor; [|constructor; [|constructor]];
        exists (local_of batch_B); repeat split.
Defined.

(* ================================================================== *)
(** * Order of the records

    The order of a batch matters only through the variable [pillar]:
    when every record that invokes modules brings its own second
    entry, a total that is returned for one order is returned for
    every other. *)

Lemma foldM_sum_shift {B} (g : B -> M Z) (l : list B) (count : Z) :
  value (foldM (fun count x => k <- g x ;; ret (count + k)) count l)
  = (t <~ value (foldM (fun count x => k <- g x ;; ret (count + k)) 0 l) ;;
     Ok (count + t)).
Proof.
  revert count. induction l as [|x l IH]; intros count; cbn [foldM].
  - cbn. now rewrite Z.add_0_r.
  - rewrite !value_bind.
    destruct (value (g x)) as [k|e]; cbn [rbind ret value fst]; [|reflexivity].
    rewrite (IH (count + k)), (IH (0 + k)).
    destruct (value (foldM _ 0 l)) as [t|e]; cbn [rbind]; [|reflexivity].
    f_equal. lia.
Qed.

(** A record that brings its own pillar, or that invokes nothing, adds
    the same whatever the variables hold. *)
Lemma inner_state_contribution (run : json -> string -> json -> M Z)
    (saltenv : string) (state : json) (state_count : Z) (pillar : json) :
  (is_inner_state state = Ok true -> sets_pillar state = true) ->
  (vars <~ value (inner_state run saltenv (state_count, pillar) state) ;;
   Ok (fst vars))
  = (k <~ contribution run saltenv state ;; Ok (state_count + k)).
Proof.
  intros Hown. unfold contribution, inner_state.
  destruct (is_inner_state state) as [[]|e] eqn:T.
  - specialize (Hown eq_refl). rewrite !bind_lift_Ok.
    destruct state as [| | | | | |members]; try discriminate.
    cbn [sets_pillar] in Hown. cbn [py_getitem].
    destruct (lookup "state.sls" members) as [[| | | | |[|first [|second rest]]|]|]
      eqn:Hsls; try discriminate.
    destruct (lookup "name" members) as [name|]; [|reflexivity].
    rewrite !bind_lift_Ok. cbn [py_index nth_error]. rewrite !bind_lift_Ok.
    destruct (py_getitem first "mods") as [mods|e]; [|reflexivity].
    rewrite !bind_lift_Ok.
    assert (P : forall p,
               inner_pillar p (JArray (first :: second :: rest))
               = py_get second "pillar" empty_dict).
    { intros p. unfold inner_pillar. cbn [py_len rbind List.length].
      replace (1 <? Z.of_nat (S (S (List.length rest)))) with true
        by (symmetry; apply Z.ltb_lt; lia).
      reflexivity. }
    rewrite !P.
    destruct (py_get second "pillar" empty_dict) as [pillar'|e]; [|reflexivity].
    rewrite !bind_lift_Ok.
    destruct (py_iter mods) as [names|e]; [|reflexivity].
    rewrite !bind_lift_Ok, !value_bind.
    rewrite (foldM_sum_shift _ names state_count).
    destruct (value (foldM _ 0 names)) as [t|e]; reflexivity.
  - rewrite !bind_lift_Ok. cbn. now rewrite Z.add_0_r.
  - reflexivity.
Qed.

Lemma foldM_inner_state_add_up (run : json -> string -> json -> M Z)
    (saltenv : string) (batch : list json) :
  Forall (fun state => is_inner_state state = Ok true -> sets_pillar state = true)
         batch ->
  forall state_count pillar,
    (vars <~ value (foldM (inner_state run saltenv) (state_count, pillar) batch) ;;
     Ok (fst vars))
    = add_up state_count (map (contribution run saltenv) batch).
Proof.
  induction 1 as [|state batch Hown _ IH]; intros state_count pillar;
    cbn [foldM map add_up]; [reflexivity|].
  rewrite value_bind.
  pose proof (inner_state_contribution run saltenv state state_count pillar Hown) as C.
  destruct (value (inner_state run saltenv (state_count, pillar) state))
    as [[count' pillar']|e]; cbn [rbind fst] in *.
  - rewrite IH. destruct (contribution run saltenv state) as [k|e];
      cbn [rbind] in *; [|discriminate].
    now injection C as ->.
  - now destruct (contribution run saltenv state).
Qed.

(** A sum that returns is the sum of the numbers added. *)
Lemma add_up_Ok (rs : list (result Z)) (count n : Z) :
  add_up count rs = Ok n
  <-> exists ks, rs = map Ok ks /\ n = count + fold_right Z.add 0 ks.
Proof.
  revert count. induction rs as [|[k|e] rs IH]; intros count; cbn [add_up rbind].
  - split.
    + intros [= <-]. exists []. split; [reflexivity | cbn; lia].
    + intros (ks & Hks & ->). destruct ks; [|discriminate]. cbn. f_equal. lia.
  - rewrite IH. split.
    + intros (ks & -> & ->). exists (k :: ks). split; [reflexivity | cbn; lia].
    + intros (ks & Hks & ->). destruct ks as [|k' ks]; [discriminate|].
      injection Hks as <- ->. exists ks. split; [reflexivity | cbn; lia].
  - split; [discriminate|].
    intros (ks & Hks & _). destruct ks; discriminate.
Qed.

Lemma fold_right_add_Permutation (ks ks' : list Z) :
  Permutation ks ks' -> fold_right Z.add 0 ks = fold_right Z.add 0 ks'.
Proof. induction 1; cbn; lia. Qed.

Lemma add_up_Permutation (rs rs' : list (result Z)) (count n : Z) :
  Permutation rs rs' -> add_up count rs = Ok n -> add_up count rs' = Ok n.
Proof.
  intros HP H. apply add_up_Ok in H as (ks & -> & ->).
  apply Permutation_sym, Permutation_map_inv in HP as (ks' & -> & HP).
  apply add_up_Ok. exists ks'. split; [reflexivity|].
  now rewrite (fold_right_add_Permutation _ _ HP).
Qed.

(** The total does not depend on the order of the records when each
    record that invokes modules brings its own second entry. *)
Lemma count_inner_states_Permutation (run : json -> string -> json -> M Z)
    (saltenv : string) (batch batch' : list json) (n : Z) :
  Permutation batch batch' ->
  Forall (fun state => is_inner_state state = Ok true -> sets_pillar state = true)
         batch ->
  value (count_inner_states_with run saltenv (local_of batch)) = Ok n ->
  value (count_inner_states_with run saltenv (local_of batch')) = Ok n.
Proof.
  intros HP Hown.
  assert (Hown' : Forall (fun state => is_inner_state state = Ok true ->
                                       sets_pillar state = true) batch').
  { rewrite Forall_forall in *. intros state Hin. apply Hown.
    now apply (Permutation_in _ (Permutation_sym HP)). }
  assert (E : forall l,
             value (count_inner_states_with run saltenv (local_of l))
             = (vars <~ value (foldM (inner_state run saltenv) (0, empty_dict) l) ;;
                Ok (fst vars))).
  { intros l. unfold count_inner_states_with.
    change (py_getitem (local_of l) "local") with (Ok (JArray l)).
    rewrite bind_lift_Ok. cbn [py_iter]. rewrite bind_lift_Ok, value_bind.
    now destruct (value (foldM (inner_state run saltenv) (0, empty_dict) l)). }
  rewrite !E, !foldM_inner_state_add_up by assumption.
  apply add_up_Permutation. now apply Permutation_map.
Qed.

(** C3 fails on the code, for the reason C2 does. The two orders of
    the same two records, the second of which brings no pillar of its
    own, give different totals on a machine that renders the module
    two according to its pillar. *)
Theorem order_changes_total :
  Permutation [with_pillar; without_pillar] [without_pillar; with_pillar]
  /\ value (count_inner_states salt_call_keyed 1%nat "base"
              (local_of [with_pillar; without_pillar])) = Ok 1
  /\ value (count_inner_states salt_call_keyed 1%nat "base"
              (local_of [without_pillar; with_pillar])) = Ok 0.
Proof. split; [apply perm_swap | split; reflexivity]. Qed.

(* ================================================================== *)
(** * Further properties of the substitution *)

Lemma re_sub_dev_no_head (text : string) :
  str_contains DEV_OPEN text = false -> re_sub_dev text = text.
Proof.
  induction text as [|c text IH]; [reflexivity|].
  intros H. cbn [str_contains] in H.
  destruct (strip_prefix DEV_OPEN (String c text)) as [r|] eqn:E; [discriminate|].
  rewrite re_sub_dev_skip; [now rewrite IH|].
  unfold match_dev. now rewrite E.
Qed.

(** X1. A text in which a double quote is nowhere followed by /dev/
    goes through the substitution unchanged; so a pillar whose
    serialization holds no such place is handed to the renderer as
    [json.dumps] writes it. *)
Theorem text_without_device_unchanged :
  (forall text, str_contains DEV_OPEN text = false -> re_sub_dev text = text)
  /\ (forall pillar,
         str_contains DEV_OPEN (json_dumps pillar) = false ->
         pillar_text pillar = json_dumps pillar).
Proof.
  split; [exact re_sub_dev_no_head|].
  intros pillar H. now apply re_sub_dev_no_head.
Qed.

Lemma text_without_device_unchanged_witness :
  re_sub_dev "saltenv=base /dev/xvdb" = "saltenv=base /dev/xvdb"
  /\ pillar_text (JObject [("mount", JString "/srv/dev/"); ("size", JInt 20)])
     = json_dumps (JObject [("mount", JString "/srv/dev/"); ("size", JInt 20)]).
Proof.
  destruct text_without_device_unchanged as (H1 & H2).
  split; [apply H1 | apply H2]; reflexivity.
Defined.

Lemma device_token_safe (s : string) :
  quote_free s = true -> device_token s = encode_string (device_safe s).
Proof.
  intros Hq. unfold device_safe, is_device_path.
  destruct (strip_prefix "/dev/" s) as [r|] eqn:E.
  - apply strip_prefix_Some in E. subst s.
    rewrite quote_free_app in Hq. apply andb_prop in Hq as [_ Hq].
    now rewrite device_token_device.
  - apply device_token_other; [assumption|].
    unfold is_device_path. now rewrite E.
Qed.

Lemma strings_plain_floats_printed (v : json) :
  strings_plain v = true -> floats_printed v = true.
Proof.
  induction v as [| b | z | r | s | l IH | kv IH] using json_nested_ind;
    cbn [strings_plain floats_printed]; try reflexivity; try (intros H; exact H).
  - rewrite !forallb_forall, Forall_forall in *. intros H x Hx. auto.
  - rewrite !forallb_forall, Forall_forall in *. intros H m Hm.
    specialize (H m Hm). apply andb_prop in H as [_ H]. auto.
Qed.

Lemma dumps_with_device_token (v : json) :
  strings_plain v = true ->
  dumps_with device_token v = json_dumps (normalize_strings v).
Proof.
  induction v as [| [] | z | r | s | l IH | kv IH] using json_nested_ind;
    cbn [strings_plain dumps_with normalize_strings json_dumps]; try reflexivity.
  - apply device_token_safe.
  - intros H. rewrite forallb_forall in H. rewrite Forall_forall in IH.
    rewrite map_map. do 3 f_equal. apply map_ext_in. intros x Hx. auto.
  - intros H. rewrite forallb_forall in H. rewrite Forall_forall in IH.
    rewrite map_map. do 3 f_equal. apply map_ext_in. intros m Hm.
    specialize (H m Hm). apply andb_prop in H as [Hk Hv]. cbn [fst snd].
    now rewrite device_token_safe, (IH m Hm Hv).
Qed.

(* ================================================================== *)
(** * Records and batches that are not what the loop expects *)

Lemma bind_assoc {A B C} (m : M A) (f : A -> M B) (g : B -> M C) :
  bind (bind m f) g = bind m (fun a => bind (f a) g).
Proof.
  unfold bind. destruct m as [[a|e] w]; cbn [fst snd]; [|reflexivity].
  destruct (f a) as [[b|e] w']; cbn [fst snd]; [|reflexivity].
  now rewrite app_assoc.
Qed.

Lemma bind_ext {A B} (m : M A) (f g : A -> M B) :
  (forall a, f a = g a) -> bind m f = bind m g.
Proof. intros H. unfold bind. destruct (fst m); [now rewrite H | reflexivity]. Qed.

Lemma foldM_app {A B} (f : A -> B -> M A) (a : A) (l1 l2 : list B) :
  foldM f a (l1 ++ l2) = (a' <- foldM f a l1 ;; foldM f a' l2).
Proof.
  revert a. induction l1 as [|x l1 IH]; intros a; cbn [foldM app].
  - now rewrite bind_ret.
  - rewrite bind_assoc. apply bind_ext. intros a'. apply IH.
Qed.

(** A turn that raises without running a command ends the loop there:
    the records after it are not looked at. *)
Lemma count_inner_states_with_raises (run : json -> string -> json -> M Z)
    (saltenv : string) (states : json) (before after : list json)
    (state : json) (e : exn) :
  py_getitem states "local" = Ok (JArray (before ++ state :: after)) ->
  Forall (fun s => is_inner_state s = Ok false) before ->
  inner_state run saltenv (0, empty_dict) state = raise e ->
  count_inner_states_with run saltenv states = raise e.
Proof.
  intros Hlocal Hbefore Hstate. unfold count_inner_states_with.
  rewrite Hlocal, bind_lift_Ok. cbn [py_iter]. rewrite bind_lift_Ok.
  rewrite foldM_app, foldM_inner_state_plain, bind_ret by assumption.
  cbn [foldM]. now rewrite Hstate.
Qed.

(** X3. A record that has the key state.sls but lacks what the loop
    reads next makes [count_inner_states] raise before any module is
    rendered: KeyError without the key state or, for the logging call,
    without the key name; IndexError when the list under state.sls is
    empty; what reading mods raises when the first entry has no such
    key or is no mapping; AttributeError when there is a second entry
    that is no mapping.  The records after it are not looked at. *)
Theorem malformed_invocation_raises :
  forall run saltenv vars members,
    (forall sls,
        lookup "state.sls" members = Some sls ->
        lookup "state" members = None ->
        inner_state run saltenv vars (JObject members) = raise KeyError)
    /\ (is_inner_state (JObject members) = Ok true ->
        lookup "name" members = None ->
        inner_state run saltenv vars (JObject members) = raise KeyError)
    /\ (forall name,
           is_inner_state (JObject members) = Ok true ->
           lookup "name" members = Some name ->
           lookup "state.sls" members = Some (JArray []) ->
           inner_state run saltenv vars (JObject members) = raise IndexError)
    /\ (forall name first rest e,
           is_inner_state (JObject members) = Ok true ->
           lookup "name" members = Some name ->
           lookup "state.sls" members = Some (JArray (first :: rest)) ->
           py_getitem first "mods" = Raise e ->
           inner_state run saltenv vars (JObject members) = raise e)
    /\ (forall name first mods second rest,
           is_inner_state (JObject members) = Ok true ->
           lookup "name" members = Some name ->
           lookup "state.sls" members = Some (JArray (first :: second :: rest)) ->
           py_getitem first "mods" = Ok mods ->
           (forall entries, second <> JObject entries) ->
           inner_state run saltenv vars (JObject members) = raise AttributeError)
    /\ (forall states before after e,
           py_getitem states "local"
           = Ok (JArray (before ++ JObject members :: after)) ->
           Forall (fun s => is_inner_state s = Ok false) before ->
           inner_state run saltenv (0, empty_dict) (JObject members) = raise e ->
           count_inner_states_with run saltenv states = raise e).
Proof.
  intros run saltenv [state_count pillar] members.
  split; [|split; [|split; [|split; [|split]]]].
  - intros sls Hsls Hstate. unfold inner_state, is_inner_state.
    cbn [py_contains py_getitem rbind]. now rewrite Hsls, Hstate.
  - intros T Hname. unfold inner_state. rewrite T, bind_lift_Ok.
    cbn [py_getitem]. now rewrite Hname.
  - intros name T Hname Hsls. unfold inner_state. rewrite T, bind_lift_Ok.
    cbn [py_getitem]. now rewrite Hname, Hsls, !bind_lift_Ok.
  - intros name first rest e T Hname Hsls Hmods.
    unfold inner_state. rewrite T, bind_lift_Ok.
    cbn [py_getitem]. rewrite Hname, Hsls, !bind_lift_Ok.
    cbn [py_index nth_error]. now rewrite bind_lift_Ok, Hmods.
  - intros name first mods second rest T Hname Hsls Hmods Hsecond.
    unfold inner_state. rewrite T, bind_lift_Ok.
    cbn [py_getitem]. rewrite Hname, Hsls, !bind_lift_Ok.
    cbn [py_index nth_error]. rewrite bind_lift_Ok, Hmods, bind_lift_Ok.
    unfold inner_pillar. cbn [py_len rbind List.length].
    replace (1 <? Z.of_nat (S (S (List.length rest)))) with true
      by (symmetry; apply Z.ltb_lt; lia).
    cbn [py_index nth_error rbind].
    destruct second; try reflexivity. now elim (Hsecond members0).
  - intros states before after e. apply count_inner_states_with_raises.
Qed.

(** A record without the key name, after a plain one. *)
Lemma malformed_invocation_raises_witness :
  count_inner_states_with (run_lowstate salt_call_A 3%nat) "base"
    (local_of [plain "a";
               JObject [("state", JString "module");
                        ("state.sls", JArray [mods_entry ["foo"]])];
               plain "b"])
  = raise KeyError
  /\ inner_state (run_lowstate salt_call_A 3%nat) "base" (0, empty_dict)
       (JObject [("state.sls", JArray [mods_entry ["foo"]])])
     = raise KeyError
  /\ inner_state (run_lowstate salt_call_A 3%nat) "base" (0, empty_dict)
       (invoke "x" [])
     = raise IndexError
  /\ inner_state (run_lowstate salt_call_A 3%nat) "base" (0, empty_dict)
       (invoke "x" [JObject [("sls", JString "foo")]])
     = raise KeyError
  /\ inner_state (run_lowstate salt_call_A 3%nat) "base" (0, empty_dict)
       (invoke "x" [mods_entry ["foo"]; JString "pillar"])
     = raise AttributeError.
Proof.
  pose (nameless := [("state", JString "module");
                     ("state.sls", JArray [mods_entry ["foo"]])]).
  split; [|split; [|split; [|split]]].
  - destruct (malformed_invocation_raises (run_lowstate salt_call_A 3%nat) "base"
                (0, empty_dict) nameless) as (_ & H2 & _ & _ & _ & H6).
    apply (H6 _ [plain "a"] [plain "b"] KeyError); [reflexivity | |].
    + repeat constructor.
    + apply H2; reflexivity.
  - destruct (malformed_invocation_raises (run_lowstate salt_call_A 3%nat) "base"
                (0, empty_dict) [("state.sls", JArray [mods_entry ["foo"]])])
      as (H1 & _).
    apply (H1 (JArray [mods_entry ["foo"]])); reflexivity.
  - destruct (malformed_invocation_raises (run_lowstate salt_call_A 3%nat) "base"
                (0, empty_dict)
                [("name", JString "x"); ("state", JString "module");
                 ("fun", JString "run"); ("state.sls", JArray [])])
      as (_ & _ & H3 & _).
    apply (H3 (JString "x")); reflexivity.
  - destruct (malformed_invocation_raises (run_lowstate salt_call_A 3%nat) "base"
                (0, empty_dict)
                [("name", JString "x"); ("state", JString "module");
                 ("fun", JString "run");
                 ("state.sls", JArray [JObject [("sls", JString "foo")]])])
      as (_ & _ & _ & H4 & _).
    apply (H4 (JString "x") (JObject [("sls", JString "foo")]) [] KeyError);
      reflexivity.
  - destruct (malformed_invocation_raises (run_lowstate salt_call_A 3%nat) "base"
                (0, empty_dict)
                [("name", JString "x"); ("state", JString "module");
                 ("fun", JString "run");
                 ("state.sls", JArray [mods_entry ["foo"]; JString "pillar"])])
      as (_ & _ & _ & _ & H5 & _).
    apply (H5 (JString "x") (mods_entry ["foo"]) (JArray [JString "foo"])
             (JString "pillar") []); try reflexivity.
    discriminate.
Defined.

Lemma is_inner_state_char (c : ascii) :
  is_inner_state (JString (String c "")) = Ok false.
Proof.
  unfold is_inner_state. cbn [py_contains rbind]. cbn [str_contains strip_prefix].
  now destruct (Ascii.eqb "s" c).
Qed.

Lemma is_inner_state_chars (s : string) :
  Forall (fun state => is_inner_state state = Ok false) (chars s).
Proof.
  induction s as [|c s IH]; cbn [chars]; constructor; [|exact IH].
  apply is_inner_state_char.
Qed.

Lemma length_chars (s : string) : List.length (chars s) = String.length s.
Proof. induction s as [|c s IH]; cbn; [reflexivity | now rewrite IH]. Qed.

Lemma is_inner_state_message (message : string) :
  is_inner_state (JString message)
  = if str_contains "state.sls" message then Raise TypeError else Ok false.
Proof.
  unfold is_inner_state. cbn [py_contains rbind].
  now destruct (str_contains "state.sls" message).
Qed.

(** X4. What is printed under the key local need not be a list of
    mappings.  When it is a list of messages none of which holds the
    text state.sls, as when a module does not render, [run_lowstate]
    returns the number of messages, having run its own command only;
    a message that holds that text makes it raise TypeError.  When it
    is one message, [run_lowstate] returns its number of characters. *)
Theorem messages_are_counted_as_states :
  forall salt_call depth state_path saltenv pillar returncode state_data,
    salt_call (LOWSTATE_SLS_CMD state_path saltenv (pillar_text pillar))
    = Exited returncode (Decodes state_data) ->
    (forall messages,
        py_getitem state_data "local" = Ok (JArray (map JString messages)) ->
        Forall (fun message => str_contains "state.sls" message = false) messages ->
        run_lowstate salt_call (S depth) state_path saltenv pillar
        = (Ok (Z.of_nat (List.length messages)),
           [LOWSTATE_SLS_CMD state_path saltenv (pillar_text pillar)]))
    /\ (forall before message after,
           py_getitem state_data "local"
           = Ok (JArray (map JString (before ++ message :: after))) ->
           Forall (fun message => str_contains "state.sls" message = false) before ->
           str_contains "state.sls" message = true ->
           run_lowstate salt_call (S depth) state_path saltenv pillar
           = (Raise TypeError,
              [LOWSTATE_SLS_CMD state_path saltenv (pillar_text pillar)]))
    /\ (forall message,
           py_getitem state_data "local" = Ok (JString message) ->
           run_lowstate salt_call (S depth) state_path saltenv pillar
           = (Ok (Z.of_nat (String.length message)),
              [LOWSTATE_SLS_CMD state_path saltenv (pillar_text pillar)])).
Proof.
  intros salt_call depth state_path saltenv pillar returncode state_data Hcmd.
  assert (E : execute_command salt_call
                (LOWSTATE_SLS_CMD state_path saltenv (pillar_text pillar))
              = (Ok state_data,
                 [LOWSTATE_SLS_CMD state_path saltenv (pillar_text pillar)])).
  { unfold execute_command. now rewrite Hcmd. }
  assert (P : forall messages,
             Forall (fun message => str_contains "state.sls" message = false)
                    messages ->
             Forall (fun state => is_inner_state state = Ok false)
                    (map JString messages)).
  { intros messages H. induction H as [|m l Hm _ IH]; constructor; [|exact IH].
    now rewrite is_inner_state_message, Hm. }
  split; [|split].
  - intros messages Hlocal Hplain.
    cbn [run_lowstate]. fold (pillar_text pillar). rewrite E.
    unfold bind at 1. cbn [fst snd].
    rewrite Hlocal, bind_lift_Ok. cbn [py_len]. rewrite bind_lift_Ok.
    unfold count_inner_states_with. rewrite Hlocal, bind_lift_Ok.
    cbn [py_iter]. rewrite bind_lift_Ok.
    rewrite foldM_inner_state_plain by now apply P.
    rewrite !bind_ret. cbn [ret fst snd app]. rewrite length_map.
    do 2 f_equal. lia.
  - intros before message after Hlocal Hplain Hmessage.
    cbn [run_lowstate]. fold (pillar_text pillar). rewrite E.
    unfold bind at 1. cbn [fst snd].
    rewrite Hlocal, bind_lift_Ok. cbn [py_len]. rewrite bind_lift_Ok.
    rewrite map_app in Hlocal. cbn [map] in Hlocal.
    rewrite (count_inner_states_with_raises _ _ _ _ _ _ TypeError Hlocal).
    + reflexivity.
    + now apply P.
    + unfold inner_state. now rewrite is_inner_state_message, Hmessage.
  - intros message Hlocal.
    cbn [run_lowstate]. fold (pillar_text pillar). rewrite E.
    unfold bind at 1. cbn [fst snd].
    rewrite Hlocal, bind_lift_Ok. cbn [py_len]. rewrite bind_lift_Ok.
    unfold count_inner_states_with. rewrite Hlocal, bind_lift_Ok.
    cbn [py_iter]. rewrite bind_lift_Ok.
    rewrite foldM_inner_state_plain by apply is_inner_state_chars.
    rewrite !bind_ret. cbn [ret fst snd app]. do 2 f_equal. lia.
Qed.

Lemma messages_are_counted_as_states_witness :
  run_lowstate salt_call_messages 1%nat (JString "broken") "base" empty_dict
  = (Ok 2, [LOWSTATE_SLS_CMD (JString "broken") "base" "{}"])
  /\ run_lowstate salt_call_messages 1%nat (JString "other") "base" empty_dict
     = (Raise TypeError, [LOWSTATE_SLS_CMD (JString "other") "base" "{}"])
  /\ run_lowstate salt_call_messages 1%nat (JString "worse") "base" empty_dict
     = (Ok 12, [LOWSTATE_SLS_CMD (JString "worse") "base" "{}"]).
Proof.
  split; [|split].
  - refine (proj1 (messages_are_counted_as_states salt_call_messages 0%nat
                     (JString "broken") "base" empty_dict 1 _ eq_refl)
              ["Rendering SLS failed"; "No matching sls found"] eq_refl _).
    repeat constructor.
  - refine (proj1 (proj2 (messages_are_counted_as_states salt_call_messages 0%nat
                            (JString "other") "base" empty_dict 1 _ eq_refl))
              [] "state.sls is not available" [] eq_refl _ eq_refl).
    constructor.
  - exact (proj2 (proj2 (messages_are_counted_as_states salt_call_messages 0%nat
                           (JString "worse") "base" empty_dict 1 _ eq_refl))
             "No such file" eq_refl).
Defined.

(* ================================================================== *)
(** * A module that invokes itself *)

(** X5. Nothing stops a module that invokes itself.  When the command
    that renders a module prints a batch whose first record to invoke
    modules names that same module first, with a pillar that gives the
    same text, [run_lowstate] raises RecursionError whatever depth is
    allowed, after running that one command once per level. *)
Theorem self_invocation_exhausts_depth :
  forall salt_call state_path saltenv text returncode state_data
         before members after first sls name others pillar',
    salt_call (LOWSTATE_SLS_CMD state_path saltenv text)
    = Exited returncode (Decodes state_data) ->
    py_getitem state_data "local"
    = Ok (JArray (before ++ JObject members :: after)) ->
    Forall (fun state => is_inner_state state = Ok false) before ->
    lookup "state.sls" members = Some (JArray (JObject first :: sls)) ->
    lookup "state" members = Some (JString "module") ->
    lookup "name" members = Some name ->
    lookup "mods" first = Some (JArray (state_path :: others)) ->
    inner_pillar empty_dict (JArray (JObject first :: sls)) = Ok pillar' ->
    pillar_text pillar' = text ->
    forall depth pillar,
      pillar_text pillar = text ->
      run_lowstate salt_call depth state_path saltenv pillar
      = (Raise RecursionError,
         repeat (LOWSTATE_SLS_CMD state_path saltenv text) depth).
Proof.
  intros salt_call state_path saltenv text returncode state_data
         before members after first sls name others pillar'
         Hcmd Hlocal Hbefore Hsls Hstate Hname Hmods Hpillar Htext.
  assert (E : execute_command salt_call (LOWSTATE_SLS_CMD state_path saltenv text)
              = (Ok state_data, [LOWSTATE_SLS_CMD state_path saltenv text])).
  { unfold execute_command. now rewrite Hcmd. }
  induction depth as [|depth IH]; intros pillar Hp; [reflexivity|].
  cbn [run_lowstate repeat]. fold (pillar_text pillar). rewrite Hp, E.
  unfold bind at 1. cbn [fst snd].
  rewrite Hlocal, bind_lift_Ok. cbn [py_len]. rewrite bind_lift_Ok.
  unfold count_inner_states_with. rewrite Hlocal, bind_lift_Ok.
  cbn [py_iter]. rewrite bind_lift_Ok.
  rewrite foldM_app, foldM_inner_state_plain, bind_ret by assumption.
  cbn [foldM].
  rewrite (inner_state_invocation _ _ _ _ _ _ _ _ _ _
             Hsls Hstate Hname Hmods Hpillar).
  cbn [foldM]. rewrite (IH pillar' Htext).
  cbn [bind fst snd app]. reflexivity.
Qed.

Lemma self_invocation_exhausts_depth_witness :
  run_lowstate salt_call_loop 3%nat (JString "loop") "base" empty_dict
  = (Raise RecursionError,
     repeat (LOWSTATE_SLS_CMD (JString "loop") "base" "{}") 3).
Proof.
  refine (self_invocation_exhausts_depth salt_call_loop (JString "loop") "base"
            "{}" 0 _ [plain "a"] _ [] [("mods", JArray [JString "loop"])] []
            (JString "again") [] empty_dict
            eq_refl eq_refl _ eq_refl eq_refl eq_refl eq_refl eq_refl eq_refl
            3%nat empty_dict eq_refl).
  repeat constructor.
Defined.

(* ================================================================== *)
(** * The total is the sum of the lengths of the rendered batches *)

Section Accounts.
Variable salt_call : command -> outcome.

Lemma sum_lengths_app (l1 l2 : list command) :
  sum_lengths salt_call (l1 ++ l2)
  = sum_lengths salt_call l1 + sum_lengths salt_call l2.
Proof.
  induction l1 as [|cmd l1 IH]; cbn [sum_lengths app]; [lia|].
  rewrite IH. lia.
Qed.

Lemma rendered_length_nonneg (cmd : command) : 0 <= rendered_length salt_call cmd.
Proof.
  unfold rendered_length.
  destruct (salt_call cmd) as [| | returncode [state_data|]]; try lia.
  destruct (py_getitem state_data "local") as [local|e]; cbn [rbind]; [|lia].
  destruct local; cbn [py_len]; lia.
Qed.

Lemma sum_lengths_nonneg (cmds : list command) : 0 <= sum_lengths salt_call cmds.
Proof.
  induction cmds as [|cmd cmds IH]; cbn [sum_lengths]; [lia|].
  pose proof (rendered_length_nonneg cmd). lia.
Qed.

Lemma accounts_ret {A} (measure : A -> Z) (a : A) :
  accounts salt_call measure (measure a) (ret a).
Proof. intros a' [= <-]. cbn. lia. Qed.

Lemma accounts_lift {A} (r : result A) (start : Z) :
  accounts salt_call (fun _ => start) start (lift r).
Proof. intros a _. cbn. lia. Qed.

Lemma accounts_bind {A B} (m : M A) (f : A -> M B) (measure : A -> Z)
    (measure' : B -> Z) (start : Z) :
  accounts salt_call measure start m ->
  (forall a, accounts salt_call measure' (measure a) (f a)) ->
  accounts salt_call measure' start (bind m f).
Proof.
  intros Hm Hf b Hb. pose proof Hb as Hb'.
  apply value_bind_Ok in Hb' as (a & Ha & Hfa).
  rewrite executed_bind, Ha, sum_lengths_app.
  rewrite (Hf a b Hfa), (Hm a Ha). lia.
Qed.

Lemma accounts_foldM {A B} (f : A -> B -> M A) (measure : A -> Z) (l : list B) :
  (forall a x, accounts salt_call measure (measure a) (f a x)) ->
  forall a, accounts salt_call measure (measure a) (foldM f a l).
Proof.
  intros Hf. induction l as [|x l IH]; intros a; cbn [foldM].
  - apply accounts_ret.
  - eapply accounts_bind; [apply Hf | exact IH].
Qed.

(** Adding to a count what a call returns. *)
Lemma accounts_add (m : M Z) (count : Z) :
  accounts salt_call (fun k => k) 0 m ->
  accounts salt_call (fun k => k) count (k <- m ;; ret (count + k)).
Proof.
  intros Hm. eapply (accounts_bind _ _ (fun k => count + k)).
  - intros k Hk. rewrite (Hm k Hk). lia.
  - intros k. apply (accounts_ret (fun k => k)).
Qed.

Lemma accounts_inner_state (run : json -> string -> json -> M Z)
    (saltenv : string) (state_count : Z) (pillar state : json) :
  (forall name env p, accounts salt_call (fun k => k) 0 (run name env p)) ->
  accounts salt_call fst state_count
    (inner_state run saltenv (state_count, pillar) state).
Proof.
  intros Hrun. unfold inner_state.
  eapply accounts_bind; [apply accounts_lift|].
  intros []; [|apply (accounts_ret fst (state_count, pillar))].
  eapply accounts_bind; [apply accounts_lift|]. intros name.
  eapply accounts_bind; [apply accounts_lift|]. intros sls.
  eapply accounts_bind; [apply accounts_lift|]. intros first.
  eapply accounts_bind; [apply accounts_lift|]. intros mods.
  eapply accounts_bind; [apply accounts_lift|]. intros pillar'.
  eapply accounts_bind; [apply accounts_lift|]. intros names.
  eapply (accounts_bind _ _ (fun k => k)).
  - apply (accounts_foldM _ (fun k => k)). intros count module.
    apply accounts_add, Hrun.
  - intros count. apply (accounts_ret fst (count, pillar')).
Qed.

Lemma accounts_count_inner_states_with (run : json -> string -> json -> M Z)
    (saltenv : string) (states : json) :
  (forall name env p, accounts salt_call (fun k => k) 0 (run name env p)) ->
  accounts salt_call (fun k => k) 0 (count_inner_states_with run saltenv states).
Proof.
  intros Hrun. unfold count_inner_states_with.
  eapply accounts_bind; [apply accounts_lift|]. intros local.
  eapply accounts_bind; [apply accounts_lift|]. intros batch.
  eapply (accounts_bind _ _ fst).
  - refine (accounts_foldM (inner_state run saltenv) fst batch _ (0, empty_dict)).
    intros [count pillar] state. now apply accounts_inner_state.
  - intros vars. apply (accounts_ret (fun k => k)).
Qed.

(** A render followed by the count of its batch and of what is below
    it, as [run_lowstate] and [main] do it. *)
Lemma accounts_render (cmd : command) (count : Z) (below : json -> M Z) :
  (forall state_data, accounts salt_call (fun k => k) 0 (below state_data)) ->
  accounts salt_call (fun k => k) count
    (state_data <- execute_command salt_call cmd ;;
     local <- lift (py_getitem state_data "local") ;;
     n <- lift (py_len local) ;;
     k <- below state_data ;;
     ret (count + n + k)).
Proof.
  intros Hbelow t Ht. pose proof Ht as H.
  apply value_bind_Ok in H as (state_data & Hdata & H).
  apply value_bind_Ok in H as (local & Hlocal & H).
  apply value_bind_Ok in H as (n & Hn & H).
  apply value_bind_Ok in H as (k & Hk & H).
  injection H as <-.
  rewrite executed_bind, Hdata, executed_execute_command.
  rewrite executed_bind, Hlocal, executed_bind, Hn, executed_bind, Hk.
  cbn [lift executed snd ret app]. rewrite app_nil_r.
  cbn [sum_lengths].
  pose proof (Hbelow state_data k Hk) as Hsum. cbn beta in Hsum.
  assert (R : rendered_length salt_call cmd = n).
  { unfold rendered_length. cbn [value lift fst] in Hlocal, Hn.
    unfold execute_command in Hdata. rewrite value_bind in Hdata.
    cbn [tell value fst rbind] in Hdata.
    destruct (salt_call cmd) as [| | returncode [data|]]; try discriminate.
    injection Hdata as ->. rewrite Hlocal. cbn [rbind]. now rewrite Hn. }
  rewrite R. lia.
Qed.

Lemma accounts_run_lowstate (depth : nat) (state_path : json) (saltenv : string)
    (pillar : json) :
  accounts salt_call (fun k => k) 0
    (run_lowstate salt_call depth state_path saltenv pillar).
Proof.
  revert state_path saltenv pillar.
  induction depth as [|depth IH]; intros state_path saltenv pillar;
    [intros k [=]|].
  cbn [run_lowstate]. apply accounts_render.
  intros state_data. now apply accounts_count_inner_states_with.
Qed.

Lemma accounts_scan (depth : nat) (low_states saltenvs : list string) :
  accounts salt_call (fun k => k) 0 (scan salt_call depth low_states saltenvs).
Proof.
  unfold scan. eapply (accounts_bind _ _ (fun k => k)).
  - apply (accounts_foldM _ (fun k => k)). intros count state.
    apply accounts_add, accounts_run_lowstate.
  - intros count. apply (accounts_foldM _ (fun k => k)).
    intros count' saltenv. apply accounts_render.
    intros state_data. unfold count_inner_states.
    apply accounts_count_inner_states_with, accounts_run_lowstate.
Qed.

End Accounts.

(** X6. A total that is returned is the sum, over the commands that
    were run, of the length of the batch each rendered: this holds of
    [run_lowstate], of [count_inner_states] and of [main], whose total
    is therefore never negative. *)
Theorem total_is_sum_of_rendered_lengths :
  (forall salt_call depth state_path saltenv pillar n,
      value (run_lowstate salt_call depth state_path saltenv pillar) = Ok n ->
      n = sum_lengths salt_call
            (executed (run_lowstate salt_call depth state_path saltenv pillar)))
  /\ (forall salt_call depth saltenv states n,
         value (count_inner_states salt_call depth saltenv states) = Ok n ->
         n = sum_lengths salt_call
               (executed (count_inner_states salt_call depth saltenv states)))
  /\ (forall salt_call depth n,
         value (main salt_call depth) = Ok n ->
         n = sum_lengths salt_call (executed (main salt_call depth)) /\ 0 <= n).
Proof.
  split; [|split].
  - intros salt_call depth state_path saltenv pillar n H.
    now rewrite (accounts_run_lowstate salt_call depth _ _ _ n H).
  - intros salt_call depth saltenv states n H.
    rewrite (accounts_count_inner_states_with salt_call _ saltenv states
               (accounts_run_lowstate salt_call depth) n H).
    reflexivity.
  - intros salt_call depth n H.
    pose proof (accounts_scan salt_call depth LOW_STATES SALTENVS n H) as E.
    cbn beta in E. rewrite Z.add_0_l in E. split; [exact E|].
    rewrite E. apply sum_lengths_nonneg.
Qed.

(** On the machine of scenario B: 2 + 4 for the root module and for
    each environment. *)
Lemma total_is_sum_of_rendered_lengths_witness :
  18 = sum_lengths salt_call_B (executed (main salt_call_B 2%nat)) /\ 0 <= 18.
Proof.
  exact (proj2 (proj2 total_is_sum_of_rendered_lengths) salt_call_B 2%nat 18
           eq_refl).
Defined.

(* ================================================================== *)
(** * What the commands of a scan are *)

Lemma runs_only_bind {A B} (P : command -> Prop) (m : M A) (f : A -> M B) :
  Forall P (executed m) ->
  (forall a, Forall P (executed (f a))) ->
  Forall P (executed (bind m f)).
Proof.
  intros Hm Hf. rewrite executed_bind. apply Forall_app. split; [exact Hm|].
  destruct (value m); [apply Hf | constructor].
Qed.

Lemma runs_only_foldM {A B} (P : command -> Prop) (f : A -> B -> M A)
    (l : list B) :
  (forall a x, Forall P (executed (f a x))) ->
  forall a, Forall P (executed (foldM f a l)).
Proof.
  intros Hf. induction l as [|x l IH]; intros a; cbn [foldM].
  - constructor.
  - apply runs_only_bind; [apply Hf | exact IH].
Qed.

Lemma runs_only_lift {A} (P : command -> Prop) (r : result A) :
  Forall P (executed (lift r)).
Proof. constructor. Qed.

Lemma runs_only_ret {A} (P : command -> Prop) (a : A) :
  Forall P (executed (ret a)).
Proof. constructor. Qed.

Lemma runs_only_inner_state (P : command -> Prop)
    (run : json -> string -> json -> M Z) (saltenv : string)
    (vars : Z * json) (state : json) :
  (forall name pillar, Forall P (executed (run name saltenv pillar))) ->
  Forall P (executed (inner_state run saltenv vars state)).
Proof.
  intros Hrun. unfold inner_state. destruct vars as [state_count pillar].
  apply runs_only_bind; [apply runs_only_lift|].
  intros []; [|apply runs_only_ret].
  repeat (apply runs_only_bind; [apply runs_only_lift|]; intros ?).
  apply runs_only_bind; [|intros ?; apply runs_only_ret].
  apply runs_only_foldM. intros count module.
  apply runs_only_bind; [apply Hrun | intros ?; apply runs_only_ret].
Qed.

Lemma runs_only_count_inner_states_with (P : command -> Prop)
    (run : json -> string -> json -> M Z) (saltenv : string) (states : json) :
  (forall name pillar, Forall P (executed (run name saltenv pillar))) ->
  Forall P (executed (count_inner_states_with run saltenv states)).
Proof.
  intros Hrun. unfold count_inner_states_with.
  repeat (apply runs_only_bind; [apply runs_only_lift|]; intros ?).
  apply runs_only_bind; [|intros ?; apply runs_only_ret].
  apply runs_only_foldM. intros vars state. now apply runs_only_inner_state.
Qed.

Lemma runs_only_run_lowstate (salt_call : command -> outcome)
    (P : command -> Prop) (saltenv : string) :
  (forall state_path text,
      re_sub_dev text = text -> P (LOWSTATE_SLS_CMD state_path saltenv text)) ->
  forall depth state_path pillar,
    Forall P (executed (run_lowstate salt_call depth state_path saltenv pillar)).
Proof.
  intros HP. induction depth as [|depth IH]; intros state_path pillar;
    cbn [run_lowstate]; [constructor|].
  apply runs_only_bind.
  - rewrite executed_execute_command. constructor; [|constructor].
    apply HP, re_sub_dev_idempotent.
  - intros state_data.
    repeat (apply runs_only_bind; [apply runs_only_lift|]; intros ?).
    apply runs_only_bind; [|intros ?; apply runs_only_ret].
    now apply runs_only_count_inner_states_with.
Qed.

(** X7. Every command that [run_lowstate] and [count_inner_states]
    run renders a module in the environment they were given, with a
    pillar text in which the substitution finds nothing more to
    replace; and every command of [main] is the full lowstate of one of
    [SALTENVS] or such a render, in base or in one of [SALTENVS].  This
    holds whether the call returns or raises. *)
Theorem commands_keep_environment :
  (forall salt_call depth state_path saltenv pillar,
      Forall (nested_command saltenv)
             (executed (run_lowstate salt_call depth state_path saltenv pillar)))
  /\ (forall salt_call depth saltenv states,
         Forall (nested_command saltenv)
                (executed (count_inner_states salt_call depth saltenv states)))
  /\ (forall salt_call depth,
         Forall (scan_command SALTENVS) (executed (main salt_call depth))).
Proof.
  assert (N : forall saltenv state_path text,
             re_sub_dev text = text ->
             nested_command saltenv (LOWSTATE_SLS_CMD state_path saltenv text)).
  { intros saltenv state_path text H. now split. }
  split; [|split].
  - intros salt_call depth state_path saltenv pillar.
    apply runs_only_run_lowstate, N.
  - intros salt_call depth saltenv states.
    apply runs_only_count_inner_states_with. intros name pillar.
    apply runs_only_run_lowstate, N.
  - intros salt_call depth. unfold main, scan.
    apply runs_only_bind.
    + apply runs_only_foldM. intros count state.
      apply runs_only_bind; [|intros ?; apply runs_only_ret].
      apply runs_only_run_lowstate. intros state_path text H.
      split; [now left | exact H].
    + intros count. generalize count. clear count.
      assert (S : forall saltenvs,
                 (forall env, In env saltenvs -> In env SALTENVS) ->
                 forall count,
                   Forall (scan_command SALTENVS)
                     (executed
                        (foldM (fun count saltenv =>
                                  state_data <- execute_command salt_call
                                                  (LOWSTATE_CMD saltenv) ;;
                                  local <- lift (py_getitem state_data "local") ;;
                                  current_state_count <- lift (py_len local) ;;
                                  k <- count_inner_states salt_call depth saltenv
                                         state_data ;;
                                  ret (count + current_state_count + k))
                               count saltenvs))).
      { induction saltenvs as [|saltenv saltenvs IH]; intros Hin count;
          cbn [foldM]; [constructor|].
        apply runs_only_bind.
        - apply runs_only_bind.
          + rewrite executed_execute_command. constructor; [|constructor].
            apply Hin. now left.
          + intros state_data.
            repeat (apply runs_only_bind; [apply runs_only_lift|]; intros ?).
            apply runs_only_bind; [|intros ?; apply runs_only_ret].
            apply runs_only_count_inner_states_with. intros name pillar.
            apply runs_only_run_lowstate. intros state_path text H.
            split; [right; apply Hin; now left | exact H].
        - intros count'. apply IH. intros env He. apply Hin. now right. }
      apply S. auto.
Qed.

(* ================================================================== *)
(** * Nothing is run after a render that fails *)

Section Orderly.
Variable salt_call : command -> outcome.

Lemma orderly_lift {A} (r : result A) : orderly salt_call (lift r).
Proof. split; [constructor | intros; constructor]. Qed.

Lemma orderly_ret {A} (a : A) : orderly salt_call (ret a).
Proof. split; [constructor | intros; constructor]. Qed.

Lemma orderly_raise {A} (e : exn) : orderly salt_call (@raise A e).
Proof. split; [constructor | intros; constructor]. Qed.

Lemma orderly_execute_command (cmd : command) :
  orderly salt_call (execute_command salt_call cmd).
Proof.
  split; rewrite executed_execute_command; [constructor|].
  intros state_data H. constructor; [|constructor]. now exists state_data.
Qed.

Lemma orderly_bind {A B} (m : M A) (f : A -> M B) :
  orderly salt_call m -> (forall a, orderly salt_call (f a)) ->
  orderly salt_call (bind m f).
Proof.
  intros [Hm1 Hm2] Hf. unfold orderly. rewrite executed_bind, value_bind.
  destruct (value m) as [a|e] eqn:E; cbn [rbind].
  - destruct (Hf a) as [Hf1 Hf2]. specialize (Hm2 a eq_refl). split.
    + destruct (executed (f a)) as [|cmd rest] eqn:Ef.
      * now rewrite app_nil_r.
      * rewrite removelast_app by discriminate. apply Forall_app. now split.
    + intros b Hb. apply Forall_app. split; [exact Hm2 | now apply (Hf2 b)].
  - rewrite app_nil_r. split; [exact Hm1 | discriminate].
Qed.

Lemma orderly_foldM {A B} (f : A -> B -> M A) (l : list B) :
  (forall a x, orderly salt_call (f a x)) ->
  forall a, orderly salt_call (foldM f a l).
Proof.
  intros Hf. induction l as [|x l IH]; intros a; cbn [foldM].
  - apply orderly_ret.
  - apply orderly_bind; [apply Hf | exact IH].
Qed.

Lemma orderly_inner_state (run : json -> string -> json -> M Z)
    (saltenv : string) (vars : Z * json) (state : json) :
  (forall name env pillar, orderly salt_call (run name env pillar)) ->
  orderly salt_call (inner_state run saltenv vars state).
Proof.
  intros Hrun. unfold inner_state. destruct vars as [state_count pillar].
  apply orderly_bind; [apply orderly_lift|].
  intros []; [|apply orderly_ret].
  repeat (apply orderly_bind; [apply orderly_lift|]; intros ?).
  apply orderly_bind; [|intros ?; apply orderly_ret].
  apply orderly_foldM. intros count module.
  apply orderly_bind; [apply Hrun | intros ?; apply orderly_ret].
Qed.

Lemma orderly_count_inner_states_with (run : json -> string -> json -> M Z)
    (saltenv : string) (states : json) :
  (forall name env pillar, orderly salt_call (run name env pillar)) ->
  orderly salt_call (count_inner_states_with run saltenv states).
Proof.
  intros Hrun. unfold count_inner_states_with.
  repeat (apply orderly_bind; [apply orderly_lift|]; intros ?).
  apply orderly_bind; [|intros ?; apply orderly_ret].
  apply orderly_foldM. intros vars state. now apply orderly_inner_state.
Qed.

Lemma orderly_run_lowstate (depth : nat) (state_path : json) (saltenv : string)
    (pillar : json) :
  orderly salt_call (run_lowstate salt_call depth state_path saltenv pillar).
Proof.
  revert state_path saltenv pillar.
  induction depth as [|depth IH]; intros state_path saltenv pillar;
    cbn [run_lowstate]; [apply orderly_raise|].
  apply orderly_bind; [apply orderly_execute_command|]. intros state_data.
  repeat (apply orderly_bind; [apply orderly_lift|]; intros ?).
  apply orderly_bind; [|intros ?; apply orderly_ret].
  now apply orderly_count_inner_states_with.
Qed.

Lemma orderly_scan (depth : nat) (low_states saltenvs : list string) :
  orderly salt_call (scan salt_call depth low_states saltenvs).
Proof.
  unfold scan. apply orderly_bind.
  - apply orderly_foldM. intros count state.
    apply orderly_bind; [apply orderly_run_lowstate | intros ?; apply orderly_ret].
  - intros count. apply orderly_foldM. intros count' saltenv.
    apply orderly_bind; [apply orderly_execute_command|]. intros state_data.
    repeat (apply orderly_bind; [apply orderly_lift|]; intros ?).
    apply orderly_bind; [|intros ?; apply orderly_ret].
    apply orderly_count_inner_states_with, orderly_run_lowstate.
Qed.

(** A command that did not render is the last one that was run. *)
Lemma orderly_failure_last {A} (m : M A) (before after : list command)
    (cmd : command) :
  orderly salt_call m ->
  executed m = (before ++ cmd :: after)%list ->
  render_fails salt_call cmd ->
  after = [].
Proof.
  intros [H _] E [e He]. rewrite E in H.
  destruct after as [|next after]; [reflexivity|]. exfalso.
  change (before ++ cmd :: next :: after)%list
    with (before ++ [cmd] ++ next :: after)%list in H.
  rewrite app_assoc, removelast_app in H by discriminate.
  apply Forall_app in H as [H _]. apply Forall_app in H as [_ H].
  inversion H as [|? ? [state_data Hd] _]. congruence.
Qed.

End Orderly.

(** X8. The scan stops at the first render that fails: a command on
    which [execute_command] raised is the last command that
    [run_lowstate], [count_inner_states] or [main] ran. *)
Theorem failed_render_is_last :
  (forall salt_call depth state_path saltenv pillar before cmd after,
      executed (run_lowstate salt_call depth state_path saltenv pillar)
      = (before ++ cmd :: after)%list ->
      render_fails salt_call cmd ->
      after = [])
  /\ (forall salt_call depth saltenv states before cmd after,
         executed (count_inner_states salt_call depth saltenv states)
         = (before ++ cmd :: after)%list ->
         render_fails salt_call cmd ->
         after = [])
  /\ (forall salt_call depth before cmd after,
         executed (main salt_call depth) = (before ++ cmd :: after)%list ->
         render_fails salt_call cmd ->
         after = []).
Proof.
  split; [|split].
  - intros salt_call depth state_path saltenv pillar before cmd after.
    apply orderly_failure_last, orderly_run_lowstate.
  - intros salt_call depth saltenv states before cmd after.
    apply orderly_failure_last, orderly_count_inner_states_with.
    intros name env pillar'. apply orderly_run_lowstate.
  - intros salt_call depth before cmd after.
    apply orderly_failure_last, orderly_scan.
Qed.

(** The environment base is not rendered once predeployment has
    failed. *)
Lemma failed_render_is_last_witness :
  executed (main salt_call_first_env_fails 1%nat)
  = ([LOWSTATE_SLS_CMD (JString "os_setup") "base" "{}"]
       ++ LOWSTATE_CMD "predeployment" :: [])%list
  /\ @nil command = [].
Proof.
  split; [reflexivity|].
  refine (proj2 (proj2 failed_render_is_last) salt_call_first_env_fails 1%nat
            [LOWSTATE_SLS_CMD (JString "os_setup") "base" "{}"]
            (LOWSTATE_CMD "predeployment") [] eq_refl _).
  now exists ValueError.
Defined.

(* ================================================================== *)
(** * The exit status plays no part *)

Lemma foldM_ext {A B} (f g : A -> B -> M A) (l : list B) :
  (forall a x, f a x = g a x) -> forall a, foldM f a l = foldM g a l.
Proof.
  intros H. induction l as [|x l IH]; intros a; cbn [foldM]; [reflexivity|].
  rewrite H. apply bind_ext, IH.
Qed.

Lemma inner_state_ext (run run' : json -> string -> json -> M Z)
    (saltenv : string) (vars : Z * json) (state : json) :
  (forall name env pillar, run name env pillar = run' name env pillar) ->
  inner_state run saltenv vars state = inner_state run' saltenv vars state.
Proof.
  intros H. unfold inner_state. destruct vars as [state_count pillar].
  apply bind_ext. intros []; [|reflexivity].
  do 6 (apply bind_ext; intros ?).
  f_equal. apply foldM_ext. intros count module. now rewrite H.
Qed.

Lemma count_inner_states_with_ext (run run' : json -> string -> json -> M Z)
    (saltenv : string) (states : json) :
  (forall name env pillar, run name env pillar = run' name env pillar) ->
  count_inner_states_with run saltenv states
  = count_inner_states_with run' saltenv states.
Proof.
  intros H. unfold count_inner_states_with.
  do 2 (apply bind_ext; intros ?).
  f_equal. apply foldM_ext. intros vars state. now apply inner_state_ext.
Qed.

Section SameOutput.
Variables salt_call salt_call' : command -> outcome.
Hypothesis same : forall cmd, same_output (salt_call cmd) (salt_call' cmd).

Lemma execute_command_same (cmd : command) :
  execute_command salt_call cmd = execute_command salt_call' cmd.
Proof.
  unfold execute_command. specialize (same cmd).
  destruct (salt_call cmd) as [| | returncode out],
           (salt_call' cmd) as [| | returncode' out'];
    cbn in same; try contradiction; try reflexivity.
  now subst out'.
Qed.

Lemma run_lowstate_same (depth : nat) (state_path : json) (saltenv : string)
    (pillar : json) :
  run_lowstate salt_call depth state_path saltenv pillar
  = run_lowstate salt_call' depth state_path saltenv pillar.
Proof.
  revert state_path saltenv pillar.
  induction depth as [|depth IH]; intros state_path saltenv pillar;
    cbn [run_lowstate]; [reflexivity|].
  rewrite execute_command_same.
  do 3 (apply bind_ext; intros ?).
  f_equal. now apply count_inner_states_with_ext.
Qed.

Lemma scan_same (depth : nat) (low_states saltenvs : list string) :
  scan salt_call depth low_states saltenvs
  = scan salt_call' depth low_states saltenvs.
Proof.
  unfold scan.
  rewrite (foldM_ext _ (fun count state =>
                          k <- run_lowstate salt_call' depth (JString state)
                                 "base" empty_dict ;;
                          ret (count + k))).
  2:{ intros count state. now rewrite run_lowstate_same. }
  apply bind_ext. intros count. apply foldM_ext. intros count' saltenv.
  rewrite execute_command_same.
  do 3 (apply bind_ext; intros ?).
  f_equal. unfold count_inner_states.
  apply count_inner_states_with_ext, run_lowstate_same.
Qed.

End SameOutput.

(** X9. The exit status of the processes plays no part: on two
    machines whose commands print the same and differ at most by their
    exit status, [run_lowstate], [count_inner_states] and [main] return
    or raise the same and run the same commands. *)
Theorem exit_status_is_ignored :
  forall salt_call salt_call',
    (forall cmd, same_output (salt_call cmd) (salt_call' cmd)) ->
    (forall depth state_path saltenv pillar,
        run_lowstate salt_call depth state_path saltenv pillar
        = run_lowstate salt_call' depth state_path saltenv pillar)
    /\ (forall depth saltenv states,
           count_inner_states salt_call depth saltenv states
           = count_inner_states salt_call' depth saltenv states)
    /\ (forall depth, main salt_call depth = main salt_call' depth).
Proof.
  intros salt_call salt_call' same. split; [|split].
  - intros depth state_path saltenv pillar. now apply run_lowstate_same.
  - intros depth saltenv states. unfold count_inner_states.
    apply count_inner_states_with_ext. intros name env pillar.
    now apply run_lowstate_same.
  - intros depth. now apply scan_same.
Qed.

Lemma exit_status_is_ignored_witness :
  main salt_call_B 2%nat = main salt_call_B_status 2%nat.
Proof.
  refine (proj2 (proj2 (exit_status_is_ignored salt_call_B salt_call_B_status _))
            2%nat).
  intros cmd. unfold salt_call_B_status.
  destruct (salt_call_B cmd); cbn; auto.
Defined.

(* ================================================================== *)
(** * Further properties of the counter *)

(** X10. When every record of a batch that invokes modules brings a
    second entry under state.sls, the order of the records does not
    matter: a total that [count_inner_states] returns for the batch is
    returned for every permutation of it. *)
Theorem order_independent_with_own_pillars :
  forall salt_call depth saltenv states states' batch batch' n,
    py_getitem states "local" = Ok (JArray batch) ->
    py_getitem states' "local" = Ok (JArray batch') ->
    Permutation batch batch' ->
    Forall (fun state => is_inner_state state = Ok true -> sets_pillar state = true)
           batch ->
    value (count_inner_states salt_call depth saltenv states) = Ok n ->
    value (count_inner_states salt_call depth saltenv states') = Ok n.
Proof.
  intros salt_call depth saltenv states states' batch batch' n
         Hlocal Hlocal' HP Hown.
  assert (Hown' : Forall (fun state => is_inner_state state = Ok true ->
                                       sets_pillar state = true) batch').
  { rewrite Forall_forall in *. intros state Hin. apply Hown.
    now apply (Permutation_in _ (Permutation_sym HP)). }
  assert (E : forall s l,
             py_getitem s "local" = Ok (JArray l) ->
             value (count_inner_states salt_call depth saltenv s)
             = (vars <~ value (foldM (inner_state (run_lowstate salt_call depth)
                                        saltenv)
                                 (0, empty_dict) l) ;;
                Ok (fst vars))).
  { intros s l Hs. unfold count_inner_states, count_inner_states_with.
    rewrite Hs, bind_lift_Ok. cbn [py_iter]. rewrite bind_lift_Ok, value_bind.
    now destruct (value (foldM _ (0, empty_dict) l)). }
  rewrite (E _ _ Hlocal), (E _ _ Hlocal').
  rewrite !foldM_inner_state_add_up by assumption.
  apply add_up_Permutation. now apply Permutation_map.
Qed.

Lemma order_independent_with_own_pillars_witness :
  value (count_inner_states salt_call_B 1%nat "base"
           (local_of [plain "a"; invoke_foo; plain "b"])) = Ok 4
  /\ value (count_inner_states salt_call_B 1%nat "base"
              (local_of [invoke_foo; plain "b"; plain "a"])) = Ok 4.
Proof.
  split; [reflexivity|].
  refine (order_independent_with_own_pillars salt_call_B 1%nat "base"
            (local_of [plain "a"; invoke_foo; plain "b"])
            (local_of [invoke_foo; plain "b"; plain "a"])
            _ _ 4 eq_refl eq_refl _ _ eq_refl).
  - apply Permutation_cons_app with (l1 := [invoke_foo; plain "b"]) (l2 := []).
    rewrite app_nil_r. apply Permutation_refl.
  - repeat constructor; discriminate.
Defined.

(** A turn of the loop on a record that invokes modules, whatever the
    value under mods is. *)
Lemma inner_state_iterates (run : json -> string -> json -> M Z)
    (saltenv : string) (state_count : Z) (pillar : json)
    (members first : list (string * json)) (name mods : json)
    (sls : list json) (pillar' : json) :
  lookup "state.sls" members = Some (JArray (JObject first :: sls)) ->
  lookup "state" members = Some (JString "module") ->
  lookup "name" members = Some name ->
  lookup "mods" first = Some mods ->
  inner_pillar pillar (JArray (JObject first :: sls)) = Ok pillar' ->
  inner_state run saltenv (state_count, pillar) (JObject members)
  = (names <- lift (py_iter mods) ;;
     state_count' <- foldM (fun count module =>
                              k <- run module saltenv pillar' ;;
                              ret (count + k))
                           state_count names ;;
     ret (state_count', pillar')).
Proof.
  intros Hsls Hstate Hname Hmods Hpillar.
  assert (T : is_inner_state (JObject members) = Ok true).
  { apply is_inner_state_true. rewrite Hsls, Hstate. split; [discriminate|reflexivity]. }
  unfold inner_state. rewrite T, bind_lift_Ok.
  cbn [py_getitem]. rewrite Hname, Hsls, !bind_lift_Ok.
  cbn [py_index nth_error]. rewrite bind_lift_Ok.
  cbn [py_getitem]. now rewrite Hmods, bind_lift_Ok, Hpillar, bind_lift_Ok.
Qed.

(** X11. The value under mods is run through as any Python value is:
    when it is one string, each of its characters is rendered as a
    module; when it is a mapping, each of its keys; when it is a number,
    a boolean or null, the turn raises TypeError before any render,
    the pillar having been read. *)
Theorem mods_is_iterated :
  forall run saltenv state_count pillar members first name sls pillar',
    lookup "state.sls" members = Some (JArray (JObject first :: sls)) ->
    lookup "state" members = Some (JString "module") ->
    lookup "name" members = Some name ->
    inner_pillar pillar (JArray (JObject first :: sls)) = Ok pillar' ->
    (forall text,
        lookup "mods" first = Some (JString text) ->
        inner_state run saltenv (state_count, pillar) (JObject members)
        = (state_count' <- foldM (fun count module =>
                                    k <- run module saltenv pillar' ;;
                                    ret (count + k))
                                 state_count (chars text) ;;
           ret (state_count', pillar')))
    /\ (forall entries,
           lookup "mods" first = Some (JObject entries) ->
           inner_state run saltenv (state_count, pillar) (JObject members)
           = (state_count' <- foldM (fun count module =>
                                       k <- run module saltenv pillar' ;;
                                       ret (count + k))
                                    state_count
                                    (map (fun entry => JString (fst entry)) entries) ;;
              ret (state_count', pillar')))
    /\ (forall mods,
           lookup "mods" first = Some mods ->
           py_iter mods = Raise TypeError ->
           inner_state run saltenv (state_count, pillar) (JObject members)
           = raise TypeError).
Proof.
  intros run saltenv state_count pillar members first name sls pillar'
         Hsls Hstate Hname Hpillar.
  split; [|split].
  - intros text Hmods.
    rewrite (inner_state_iterates _ _ _ _ _ _ _ _ _ _
               Hsls Hstate Hname Hmods Hpillar).
    cbn [py_iter]. now rewrite bind_lift_Ok.
  - intros entries Hmods.
    rewrite (inner_state_iterates _ _ _ _ _ _ _ _ _ _
               Hsls Hstate Hname Hmods Hpillar).
    cbn [py_iter]. now rewrite bind_lift_Ok.
  - intros mods Hmods Hiter.
    rewrite (inner_state_iterates _ _ _ _ _ _ _ _ _ _
               Hsls Hstate Hname Hmods Hpillar).
    now rewrite Hiter.
Qed.

(** The string ab is rendered as the modules a and b. *)
Lemma mods_is_iterated_witness :
  executed (inner_state (run_lowstate salt_call_empty 1%nat) "base"
              (0, empty_dict) invoke_string)
  = [LOWSTATE_SLS_CMD (JString "a") "base" "{}";
     LOWSTATE_SLS_CMD (JString "b") "base" "{}"].
Proof.
  change invoke_string
    with (JObject [("name", JString "nested"); ("state", JString "module");
                   ("state.sls", JArray [JObject [("mods", JString "ab")]])]).
  rewrite (proj1 (mods_is_iterated (run_lowstate salt_call_empty 1%nat) "base" 0
                    empty_dict
                    [("name", JString "nested"); ("state", JString "module");
                     ("state.sls", JArray [JObject [("mods", JString "ab")]])]
                    [("mods", JString "ab")] (JString "nested") []
                    empty_dict eq_refl eq_refl eq_refl eq_refl)
             "ab" eq_refl).
  reflexivity.
Defined.

(* ================================================================== *)
(** * More depth than needed changes nothing *)

Lemma scan_deeper (salt_call : command -> outcome) (depth more : nat)
    (low_states saltenvs : list string) (n : Z) :
  value (scan salt_call depth low_states saltenvs) = Ok n ->
  scan salt_call (more + depth) low_states saltenvs
  = scan salt_call depth low_states saltenvs.
Proof.
  intros H. unfold scan in *.
  pose proof H as H'. apply value_bind_Ok in H' as (count & Hcount & Henvs).
  rewrite (foldM_ext_Ok
             (fun count state =>
                k <- run_lowstate salt_call depth (JString state) "base" empty_dict ;;
                ret (count + k))
             (fun count state =>
                k <- run_lowstate salt_call (more + depth) (JString state) "base"
                       empty_dict ;;
                ret (count + k))
             low_states) with (b := count); [|clear|exact Hcount].
  2:{ intros a x b Hb. apply value_bind_Ok in Hb as (k & Hk & _).
      apply bind_ext_head. exact (run_lowstate_deeper _ _ _ _ _ _ _ Hk). }
  apply (bind_ext_Ok _ _ _ _ H). intros count' _ H1.
  apply (foldM_ext_Ok _ _ _) with (b := n); [|exact H1].
  clear. intros a saltenv b Hb.
  apply (bind_ext_Ok _ _ _ _ Hb). intros state_data _ H1.
  apply (bind_ext_Ok _ _ _ _ H1). intros local _ H2.
  apply (bind_ext_Ok _ _ _ _ H2). intros current _ H3.
  apply value_bind_Ok in H3 as (k & Hk & _).
  apply bind_ext_head. exact (count_inner_states_deeper _ _ _ _ _ _ Hk).
Qed.

(** X12. A call that returns within some depth of nested calls behaves
    the same when more depth is allowed: [run_lowstate],
    [count_inner_states] and [main] return the same total and run the
    same commands. *)
Theorem more_depth_changes_nothing :
  (forall salt_call depth more state_path saltenv pillar n,
      value (run_lowstate salt_call depth state_path saltenv pillar) = Ok n ->
      run_lowstate salt_call (more + depth) state_path saltenv pillar
      = run_lowstate salt_call depth state_path saltenv pillar)
  /\ (forall salt_call depth more saltenv states n,
         value (count_inner_states salt_call depth saltenv states) = Ok n ->
         count_inner_states salt_call (more + depth) saltenv states
         = count_inner_states salt_call depth saltenv states)
  /\ (forall salt_call depth more n,
         value (main salt_call depth) = Ok n ->
         main salt_call (more + depth) = main salt_call depth).
Proof.
  split; [|split].
  - intros salt_call depth more state_path saltenv pillar n H.
    exact (run_lowstate_deeper _ _ _ _ _ _ _ H).
  - intros salt_call depth more saltenv states n H.
    exact (count_inner_states_deeper _ _ _ _ _ _ H).
  - intros salt_call depth more n H. exact (scan_deeper _ _ _ _ _ _ H).
Qed.

Lemma more_depth_changes_nothing_witness :
  main salt_call_B (998 + 2)%nat = main salt_call_B 2%nat.
Proof.
  exact (proj2 (proj2 more_depth_changes_nothing) salt_call_B 2%nat 998%nat 18
           eq_refl).
Defined.

(* ================================================================== *)
(** * Device names do not tell pillars apart *)

(** X13. [run_lowstate] sees of its pillar the text put in the command
    only: two pillars without double quotes in their strings that
    become the same pillar once their device paths are replaced make it
    return or raise the same and run the same commands. *)
Theorem device_names_do_not_matter :
  forall salt_call depth state_path saltenv pillar pillar',
    strings_plain pillar = true ->
    strings_plain pillar' = true ->
    normalize_strings pillar = normalize_strings pillar' ->
    run_lowstate salt_call depth state_path saltenv pillar
    = run_lowstate salt_call depth state_path saltenv pillar'.
Proof.
  intros salt_call depth state_path saltenv pillar pillar' Hp Hp' Hn.
  assert (E : pillar_text pillar = pillar_text pillar').
  { rewrite !pillar_text_dumps_with by now apply strings_plain_floats_printed.
    rewrite !dumps_with_device_token by assumption. now rewrite Hn. }
  destruct depth as [|depth]; [reflexivity|].
  cbn [run_lowstate]. fold (pillar_text pillar) (pillar_text pillar').
  now rewrite E.
Qed.

Lemma device_names_do_not_matter_witness :
  run_lowstate salt_call_keyed 2%nat (JString "two") "base"
    (JObject [("device", JString "/dev/xvdb")])
  = run_lowstate salt_call_keyed 2%nat (JString "two") "base"
      (JObject [("device", JString "/dev/xvdc")]).
Proof.
  exact (device_names_do_not_matter salt_call_keyed 2%nat (JString "two") "base"
           (JObject [("device", JString "/dev/xvdb")])
           (JObject [("device", JString "/dev/xvdc")])
           eq_refl eq_refl eq_refl).
Defined.

(* ================================================================== *)
(** * The pillar in the command that [run_lowstate] runs *)

(** The first command of [run_lowstate] is its own, with the pillar
    text made from its argument. *)
Lemma hd_executed_run_lowstate (salt_call : command -> outcome) (depth : nat)
    (state_path : json) (saltenv : string) (pillar : json) :
  hd_error (executed (run_lowstate salt_call (S depth) state_path saltenv pillar))
  = Some (LOWSTATE_SLS_CMD state_path saltenv (re_sub_dev (json_dumps pillar))).
Proof.
  cbn [run_lowstate]. now rewrite executed_bind, executed_execute_command.
Qed.

(** C6, as stated, fails on a device name that holds a double quote:
    the match stops at that quote, so that in the command that
    [run_lowstate] runs the value is not replaced by the placeholder,
    and the pillar text is not the serialization of the pillar with
    its device paths replaced. *)
Lemma device_path_with_quote_not_replaced :
  json_dumps pillar_quoted = dq "{'device': '/dev/a\'b'}"
  /\ executed (run_lowstate salt_call_empty 1%nat (JString "sbd") "base"
                 pillar_quoted)
     = [LOWSTATE_SLS_CMD (JString "sbd") "base" (dq "{'device': '/dev/sda2'b'}")]
  /\ json_dumps (normalize_values pillar_quoted) = dq "{'device': '/dev/sda2'}"
  /\ dq "{'device': '/dev/sda2'b'}" <> json_dumps (normalize_values pillar_quoted).
Proof. repeat split; try reflexivity. discriminate. Qed.

(** C6, amended. In the command that [run_lowstate] runs, the pillar
    text is the serialized pillar in which each string, key or value,
    at any depth, is rewritten on its own; a string that starts with
    /dev/ and holds no double quote is replaced whole by the
    placeholder, any other string without a double quote is written as
    [json.dumps] writes it; so the pillar of scenario C is handed over
    with /dev/sda2 for its device, by [run_lowstate] on any machine and
    in the nested render of a record that brings it. *)
Theorem device_paths_replaced :
  (forall salt_call depth state_path saltenv pillar,
      floats_printed pillar = true ->
      hd_error (executed (run_lowstate salt_call (S depth) state_path saltenv
                            pillar))
      = Some (LOWSTATE_SLS_CMD state_path saltenv
                (dumps_with device_token pillar)))
  /\ (forall s, quote_free s = true -> device_token ("/dev/" ++ s) = DEV_SDA2)
  /\ (forall s, quote_free s = true -> is_device_path s = false ->
                device_token s = encode_string s)
  /\ (forall salt_call depth state_path saltenv,
         hd_error (executed (run_lowstate salt_call (S depth) state_path saltenv
                               pillar_C))
         = Some (LOWSTATE_SLS_CMD state_path saltenv
                   (dq "{'device': '/dev/sda2'}")))
  /\ executed (count_inner_states salt_call_empty 1%nat "base"
                 (local_of [invoke_sbd]))
     = [LOWSTATE_SLS_CMD (JString "sbd") "base" (dq "{'device': '/dev/sda2'}")].
Proof.
  split; [|split; [|split; [|split]]].
  - intros salt_call depth state_path saltenv pillar Hf.
    rewrite hd_executed_run_lowstate. fold (pillar_text pillar).
    now rewrite pillar_text_dumps_with.
  - exact device_token_device.
  - exact device_token_other.
  - intros salt_call depth state_path saltenv.
    now rewrite hd_executed_run_lowstate.
  - reflexivity.
Qed.

Lemma device_paths_replaced_witness :
  hd_error (executed (run_lowstate salt_call_B 1%nat (JString "cluster") "base"
                        (JObject [("disks", JArray [JString "/dev/xvdb";
                                                    JString "none"])])))
  = Some (LOWSTATE_SLS_CMD (JString "cluster") "base"
            (dq "{'disks': ['/dev/sda2', 'none']}"))
  /\ device_token ("/dev/" ++ "xvdb") = DEV_SDA2
  /\ device_token "none" = encode_string "none".
Proof.
  destruct device_paths_replaced as (H1 & H2 & H3 & _).
  split; [|split; [apply H2; reflexivity | apply H3; reflexivity]].
  rewrite (H1 salt_call_B 0%nat (JString "cluster") "base"
             (JObject [("disks", JArray [JString "/dev/xvdb"; JString "none"])])
             eq_refl).
  reflexivity.
Defined.

(** C10. The substitution works on the text of the pillar in the
    command that [run_lowstate] runs: a key that names a device is
    rewritten as a value is, a string is replaced whole up to its
    closing quote whatever follows the device path in it, and two keys
    that name devices become one and the same key, so that the text is
    not the serialization of the pillar with its values replaced. *)
Theorem keys_and_whole_strings_rewritten :
  (forall salt_call depth state_path saltenv key v,
      quote_free key = true -> floats_printed v = true ->
      hd_error (executed (run_lowstate salt_call (S depth) state_path saltenv
                            (JObject [("/dev/" ++ key, v)])))
      = Some (LOWSTATE_SLS_CMD state_path saltenv
                ("{" ++ DEV_SDA2 ++ ": " ++ dumps_with device_token v ++ "}")))
  /\ (forall salt_call depth state_path saltenv s,
         quote_free s = true ->
         hd_error (executed (run_lowstate salt_call (S depth) state_path saltenv
                               (JString ("/dev/" ++ s))))
         = Some (LOWSTATE_SLS_CMD state_path saltenv DEV_SDA2))
  /\ (forall salt_call depth state_path saltenv,
         hd_error (executed (run_lowstate salt_call (S depth) state_path saltenv
                               (JString "/dev/xvdb1 and then /dev/xvdb2")))
         = Some (LOWSTATE_SLS_CMD state_path saltenv DEV_SDA2))
  /\ json_dumps pillar_keys = dq "{'/dev/a': 1, '/dev/b': 2}"
  /\ (forall salt_call depth state_path saltenv,
         hd_error (executed (run_lowstate salt_call (S depth) state_path saltenv
                               pillar_keys))
         = Some (LOWSTATE_SLS_CMD state_path saltenv
                   (dq "{'/dev/sda2': 1, '/dev/sda2': 2}")))
  /\ dq "{'/dev/sda2': 1, '/dev/sda2': 2}"
     <> json_dumps (normalize_values pillar_keys).
Proof.
  split; [|split; [|split; [|split; [|split]]]].
  - intros salt_call depth state_path saltenv key v Hk Hv.
    rewrite hd_executed_run_lowstate.
    fold (pillar_text (JObject [("/dev/" ++ key, v)])).
    rewrite pillar_text_dumps_with by (cbn; now rewrite Hv).
    cbn [dumps_with map String.concat fst snd].
    now rewrite device_token_device.
  - intros salt_call depth state_path saltenv s Hs.
    rewrite hd_executed_run_lowstate. fold (pillar_text (JString ("/dev/" ++ s))).
    rewrite pillar_text_dumps_with by reflexivity.
    cbn [dumps_with]. now rewrite device_token_device.
  - intros salt_call depth state_path saltenv.
    now rewrite hd_executed_run_lowstate.
  - reflexivity.
  - intros salt_call depth state_path saltenv.
    now rewrite hd_executed_run_lowstate.
  - discriminate.
Qed.

Lemma keys_and_whole_strings_rewritten_witness :
  hd_error (executed (run_lowstate salt_call_B 1%nat (JString "cluster") "base"
                        (JObject [("/dev/" ++ "xvdb", JString "/dev/xvdc")])))
  = Some (LOWSTATE_SLS_CMD (JString "cluster") "base"
            (dq "{'/dev/sda2': '/dev/sda2'}"))
  /\ hd_error (executed (run_lowstate salt_call_B 1%nat (JString "cluster") "base"
                           (JString ("/dev/" ++ "xvdb is the disk"))))
     = Some (LOWSTATE_SLS_CMD (JString "cluster") "base" DEV_SDA2).
Proof.
  destruct keys_and_whole_strings_rewritten as (H1 & H2 & _).
  split.
  - rewrite (H1 salt_call_B 0%nat (JString "cluster") "base" "xvdb"
               (JString "/dev/xvdc") eq_refl eq_refl).
    reflexivity.
  - apply H2. reflexivity.
Defined.

(* ================================================================== *)
(** * Output without the key local *)

Section MissingKey.
Variable salt_call : command -> outcome.

Lemma halts_lift {A} (r : result A) : halts_on_missing_key salt_call (lift r).
Proof. split; [intros cmd e [] | constructor]. Qed.

Lemma halts_ret {A} (a : A) : halts_on_missing_key salt_call (ret a).
Proof. split; [intros cmd e [] | constructor]. Qed.

Lemma halts_raise {A} (e : exn) : halts_on_missing_key salt_call (@raise A e).
Proof. split; [intros cmd e' [] | constructor]. Qed.

Lemma halts_bind {A B} (m : M A) (f : A -> M B) :
  halts_on_missing_key salt_call m ->
  (forall a, halts_on_missing_key salt_call (f a)) ->
  halts_on_missing_key salt_call (bind m f).
Proof.
  intros [Hm1 Hm2] Hf. unfold halts_on_missing_key.
  rewrite executed_bind, value_bind.
  destruct (value m) as [a|e0] eqn:E; cbn [rbind].
  - destruct (Hf a) as [Hf1 Hf2].
    assert (G : Forall (fun cmd => forall e, ~ missing_key salt_call cmd e)
                       (executed m)).
    { apply Forall_forall. intros cmd Hin e He.
      specialize (Hm1 cmd e Hin He). congruence. }
    split.
    + intros cmd e Hin He. apply in_app_or in Hin as [Hin | Hin].
      * specialize (Hm1 cmd e Hin He). congruence.
      * now apply Hf1 with (cmd := cmd).
    + destruct (executed (f a)) as [|c rest] eqn:Ef.
      * now rewrite app_nil_r.
      * rewrite removelast_app by discriminate. apply Forall_app. now split.
  - rewrite app_nil_r. split; [|exact Hm2].
    intros cmd e Hin He. specialize (Hm1 cmd e Hin He). congruence.
Qed.

Lemma halts_foldM {A B} (f : A -> B -> M A) (l : list B) :
  (forall a x, halts_on_missing_key salt_call (f a x)) ->
  forall a, halts_on_missing_key salt_call (foldM f a l).
Proof.
  intros Hf. induction l as [|x l IH]; intros a; cbn [foldM].
  - apply halts_ret.
  - apply halts_bind; [apply Hf | exact IH].
Qed.

(** A render followed by the reading of the key local, as
    [run_lowstate] and [main] do it. *)
Lemma halts_render {A} (cmd : command) (k : json -> json -> M A) :
  (forall state_data local, halts_on_missing_key salt_call (k state_data local)) ->
  halts_on_missing_key salt_call
    (state_data <- execute_command salt_call cmd ;;
     local <- lift (py_getitem state_data "local") ;;
     k state_data local).
Proof.
  intros Hk.
  assert (Stop : forall e0,
             (forall e, missing_key salt_call cmd e -> e = e0) ->
             halts_on_missing_key salt_call (@pair (result A) _ (Raise e0) [cmd])).
  { intros e0 He0. split; [|constructor].
    intros c e [<- | []] He. cbn. f_equal. symmetry. now apply He0. }
  unfold execute_command.
  destruct (salt_call cmd) as [| | returncode [data|]] eqn:E.
  - apply (Stop ValueError). intros e (r & d & H & _). congruence.
  - apply (Stop OSError). intros e (r & d & H & _). congruence.
  - destruct (py_getitem data "local") as [local|e0] eqn:L.
    + destruct (Hk data local) as [Hk1 Hk2].
      assert (G : forall e, ~ missing_key salt_call cmd e).
      { intros e (r & d & H & Hd). rewrite E in H. injection H as _ <-.
        congruence. }
      replace (state_data <- (tell cmd ;; ret data) ;;
               local0 <- lift (py_getitem state_data "local") ;;
               k state_data local0)
        with (fst (k data local), cmd :: snd (k data local)).
      2:{ unfold bind at 1. cbn [tell ret bind fst snd app]. rewrite L.
          unfold bind, lift. cbn [fst snd app]. reflexivity. }
      split.
      * intros c e [<- | Hin] He; [now elim (G e)|].
        exact (Hk1 c e Hin He).
      * cbn [executed snd]. unfold executed in Hk2.
        destruct (snd (k data local)) as [|c rest]; [constructor|].
        change (removelast (cmd :: c :: rest))
          with (cmd :: removelast (c :: rest)).
        constructor; [exact G | exact Hk2].
    + replace (state_data <- (tell cmd ;; ret data) ;;
               local <- lift (py_getitem state_data "local") ;;
               k state_data local)
        with (@pair (result A) _ (Raise e0) [cmd]).
      2:{ unfold bind at 1. cbn [tell ret bind fst snd app]. rewrite L.
          reflexivity. }
      apply Stop. intros e (r & d & H & Hd). rewrite E in H.
      injection H as _ <-. congruence.
  - apply (Stop ValueError). intros e (r & d & H & _). congruence.
Qed.

Lemma halts_inner_state (run : json -> string -> json -> M Z)
    (saltenv : string) (vars : Z * json) (state : json) :
  (forall name env pillar, halts_on_missing_key salt_call (run name env pillar)) ->
  halts_on_missing_key salt_call (inner_state run saltenv vars state).
Proof.
  intros Hrun. unfold inner_state. destruct vars as [state_count pillar].
  apply halts_bind; [apply halts_lift|].
  intros []; [|apply halts_ret].
  repeat (apply halts_bind; [apply halts_lift|]; intros ?).
  apply halts_bind; [|intros ?; apply halts_ret].
  apply halts_foldM. intros count module.
  apply halts_bind; [apply Hrun | intros ?; apply halts_ret].
Qed.

Lemma halts_count_inner_states_with (run : json -> string -> json -> M Z)
    (saltenv : string) (states : json) :
  (forall name env pillar, halts_on_missing_key salt_call (run name env pillar)) ->
  halts_on_missing_key salt_call (count_inner_states_with run saltenv states).
Proof.
  intros Hrun. unfold count_inner_states_with.
  repeat (apply halts_bind; [apply halts_lift|]; intros ?).
  apply halts_bind; [|intros ?; apply halts_ret].
  apply halts_foldM. intros vars state. now apply halts_inner_state.
Qed.

Lemma halts_run_lowstate (depth : nat) (state_path : json) (saltenv : string)
    (pillar : json) :
  halts_on_missing_key salt_call
    (run_lowstate salt_call depth state_path saltenv pillar).
Proof.
  revert state_path saltenv pillar.
  induction depth as [|depth IH]; intros state_path saltenv pillar;
    cbn [run_lowstate]; [apply halts_raise|].
  apply halts_render. intros state_data local.
  apply halts_bind; [apply halts_lift|]. intros n.
  apply halts_bind; [|intros ?; apply halts_ret].
  now apply halts_count_inner_states_with.
Qed.

Lemma halts_scan (depth : nat) (low_states saltenvs : list string) :
  halts_on_missing_key salt_call (scan salt_call depth low_states saltenvs).
Proof.
  unfold scan. apply halts_bind.
  - apply halts_foldM. intros count state.
    apply halts_bind; [apply halts_run_lowstate | intros ?; apply halts_ret].
  - intros count. apply halts_foldM. intros count' saltenv.
    apply halts_render. intros state_data local.
    apply halts_bind; [apply halts_lift|]. intros n.
    apply halts_bind; [|intros ?; apply halts_ret].
    apply halts_count_inner_states_with, halts_run_lowstate.
Qed.

(** What [halts_on_missing_key] says of one command that was run. *)
Lemma halts_at {A} (m : M A) (cmd : command) (e : exn) :
  halts_on_missing_key salt_call m ->
  In cmd (executed m) -> missing_key salt_call cmd e ->
  value m = Raise e
  /\ executed m = (removelast (executed m) ++ [cmd])%list.
Proof.
  intros [H1 H2] Hin He. split; [now apply (H1 cmd)|].
  destruct (executed m) as [|c rest] eqn:Ex; [contradiction|].
  rewrite (app_removelast_last c) at 1 by discriminate.
  f_equal. f_equal.
  rewrite (app_removelast_last c (l := c :: rest)) in Hin by discriminate.
  apply in_app_or in Hin as [Hin | [Hin | []]]; [|exact Hin].
  rewrite Forall_forall in H2. now elim (H2 cmd Hin e).
Qed.

End MissingKey.

(** A computation that halts on a missing key, and ran a command whose
    output lacks the key, raised on that command, the last it ran. *)
Lemma halts_stops {A} (salt_call : command -> outcome) (m : M A)
    (cmd : command) (e : exn) :
  halts_on_missing_key salt_call m ->
  In cmd (executed m) -> missing_key salt_call cmd e ->
  exists before,
    m = (Raise e, (before ++ [cmd])%list) /\ ~ In cmd before.
Proof.
  intros H Hin He.
  destruct (halts_at salt_call m cmd e H Hin He) as [Hv Hx].
  exists (removelast (executed m)). split.
  - rewrite <- Hx, <- Hv. now destruct m.
  - intros Hb. destruct H as [_ H]. rewrite Forall_forall in H.
    exact (H cmd Hb e He).
Qed.

(** The scans of three machines whose output lacks the key local: at
    the first render of [main]; in the module foo, invoked by what the
    module os_setup renders; in the second environment, after the
    module and the first environment were counted. *)
Lemma missing_key_traces :
  main salt_call_no_local 3
  = (Raise KeyError, [LOWSTATE_SLS_CMD (JString "os_setup") "base" "{}"])
  /\ main salt_call_nested_no_local 3
     = (Raise KeyError, [LOWSTATE_SLS_CMD (JString "os_setup") "base" "{}";
                         LOWSTATE_SLS_CMD (JString "foo") "base" "{}"])
  /\ main salt_call_base_no_local 3
     = (Raise KeyError, [LOWSTATE_SLS_CMD (JString "os_setup") "base" "{}";
                         LOWSTATE_CMD "predeployment";
                         LOWSTATE_CMD "base"]).
Proof. repeat split; vm_compute; reflexivity. Qed.

(** C5, amended. What decodes is returned unchecked by
    [execute_command]; when it has no key local it is the caller,
    [run_lowstate] or [main], that raises on reading the key, right
    after that command. So a render by [run_lowstate], a scan of a
    batch by [count_inner_states], a scan of any modules and
    environments, and [main] itself, once they run such a command, at
    the root or nested, in the first environment or a later one, end
    with the error of that reading and no total, that command being
    the last one run and not run before. *)
Theorem missing_key_raises_in_caller :
  forall salt_call cmd returncode data e,
    salt_call cmd = Exited returncode (Decodes data) ->
    py_getitem data "local" = Raise e ->
    execute_command salt_call cmd = (Ok data, [cmd])
    /\ (forall depth state_path saltenv pillar,
           cmd = LOWSTATE_SLS_CMD state_path saltenv
                   (re_sub_dev (json_dumps pillar)) ->
           run_lowstate salt_call (S depth) state_path saltenv pillar
           = (Raise e, [cmd]))
    /\ (forall depth saltenv saltenvs,
           cmd = LOWSTATE_CMD saltenv ->
           scan salt_call depth [] (saltenv :: saltenvs) = (Raise e, [cmd]))
    /\ (forall depth state_path saltenv pillar,
           In cmd (executed (run_lowstate salt_call depth state_path saltenv
                               pillar)) ->
           exists before,
             run_lowstate salt_call depth state_path saltenv pillar
             = (Raise e, (before ++ [cmd])%list)
             /\ ~ In cmd before)
    /\ (forall depth saltenv states,
           In cmd (executed (count_inner_states salt_call depth saltenv
                               states)) ->
           exists before,
             count_inner_states salt_call depth saltenv states
             = (Raise e, (before ++ [cmd])%list)
             /\ ~ In cmd before)
    /\ (forall depth low_states saltenvs,
           In cmd (executed (scan salt_call depth low_states saltenvs)) ->
           exists before,
             scan salt_call depth low_states saltenvs
             = (Raise e, (before ++ [cmd])%list)
             /\ ~ In cmd before)
    /\ (forall depth,
           In cmd (executed (main salt_call depth)) ->
           exists before,
             main salt_call depth = (Raise e, (before ++ [cmd])%list)
             /\ ~ In cmd before).
Proof.
  intros salt_call cmd returncode data e Hcmd Hkey.
  assert (E : execute_command salt_call cmd = (Ok data, [cmd])).
  { unfold execute_command. now rewrite Hcmd. }
  assert (R : forall k : json -> json -> M Z,
             bind (execute_command salt_call cmd)
               (fun state_data =>
                  bind (lift (py_getitem state_data "local")) (k state_data))
             = (Raise e, [cmd])).
  { intros k. rewrite E. unfold bind at 1. cbn [fst snd]. now rewrite Hkey. }
  assert (K : missing_key salt_call cmd e).
  { now exists returncode, data. }
  split; [exact E|]. split; [|split; [|split; [|split; [|split]]]].
  - intros depth state_path saltenv pillar ->.
    cbn [run_lowstate].
    exact (R (fun state_data local =>
                n <- lift (py_len local) ;;
                k <- count_inner_states_with (run_lowstate salt_call depth)
                       saltenv state_data ;;
                ret (0 + n + k))).
  - intros depth saltenv saltenvs ->.
    unfold scan. cbn [foldM]. rewrite bind_ret.
    apply bind_Raise_eq.
    exact (R (fun state_data local =>
                n <- lift (py_len local) ;;
                k <- count_inner_states salt_call depth saltenv state_data ;;
                ret (0 + n + k))).
  - intros depth state_path saltenv pillar Hin.
    exact (halts_stops salt_call _ cmd e
             (halts_run_lowstate salt_call depth state_path saltenv pillar)
             Hin K).
  - intros depth saltenv states Hin.
    refine (halts_stops salt_call _ cmd e _ Hin K).
    apply halts_count_inner_states_with, halts_run_lowstate.
  - intros depth low_states saltenvs Hin.
    exact (halts_stops salt_call _ cmd e
             (halts_scan salt_call depth low_states saltenvs) Hin K).
  - intros depth Hin.
    exact (halts_stops salt_call _ cmd e
             (halts_scan salt_call depth LOW_STATES SALTENVS) Hin K).
Qed.

Lemma missing_key_raises_in_caller_witness :
  execute_command salt_call_no_local (LOWSTATE_CMD "base")
  = (Ok no_local, [LOWSTATE_CMD "base"])
  /\ run_lowstate salt_call_no_local 1%nat (JString "os_setup") "base" empty_dict
     = (Raise KeyError, [LOWSTATE_SLS_CMD (JString "os_setup") "base" "{}"])
  /\ scan salt_call_no_local 1%nat [] ["base"]
     = (Raise KeyError, [LOWSTATE_CMD "base"])
  /\ (exists before,
         main salt_call_nested_no_local 3
         = (Raise KeyError,
            (before ++ [LOWSTATE_SLS_CMD (JString "foo") "base" "{}"])%list)
         /\ ~ In (LOWSTATE_SLS_CMD (JString "foo") "base" "{}") before)
  /\ (exists before,
         main salt_call_base_no_local 3
         = (Raise KeyError, (before ++ [LOWSTATE_CMD "base"])%list)
         /\ ~ In (LOWSTATE_CMD "base") before).
Proof.
  split; [|split; [|split; [|split]]].
  - exact (proj1 (missing_key_raises_in_caller salt_call_no_local
                    (LOWSTATE_CMD "base") 0 no_local KeyError eq_refl eq_refl)).
  - exact (proj1 (proj2 (missing_key_raises_in_caller salt_call_no_local
                           (LOWSTATE_SLS_CMD (JString "os_setup") "base" "{}")
                           0 no_local KeyError eq_refl eq_refl))
             0%nat (JString "os_setup") "base" empty_dict eq_refl).
  - exact (proj1 (proj2 (proj2 (missing_key_raises_in_caller salt_call_no_local
                           (LOWSTATE_CMD "base") 0 no_local KeyError
                           eq_refl eq_refl)))
             1%nat "base" [] eq_refl).
  - apply (missing_key_raises_in_caller salt_call_nested_no_local
             (LOWSTATE_SLS_CMD (JString "foo") "base" "{}") 0 no_local KeyError
             eq_refl eq_refl).
    vm_compute. right. left. reflexivity.
  - apply (missing_key_raises_in_caller salt_call_base_no_local
             (LOWSTATE_CMD "base") 0 no_local KeyError eq_refl eq_refl).
    vm_compute. right. right. left. reflexivity.
Defined.

(** X2. For a pillar none of whose keys and strings holds a double
    quote, and no mapping of which has two keys that the replacement
    makes equal, the text in the command that [run_lowstate] runs is
    the serialization of a pillar: the one in which every key and
    every string, at any depth, that starts with /dev/ has become
    /dev/sda2, the rest being kept. *)
Theorem pillar_text_is_serialized_pillar
    (salt_call : command -> outcome) (depth : nat) (state_path : json)
    (saltenv : string) (pillar : json) :
  strings_plain pillar = true ->
  dict_keys_distinct (normalize_strings pillar) = true ->
  hd_error (executed (run_lowstate salt_call (S depth) state_path saltenv pillar))
  = Some (LOWSTATE_SLS_CMD state_path saltenv
            (json_dumps (normalize_strings pillar))).
Proof.
  intros H _. rewrite hd_executed_run_lowstate. do 2 f_equal.
  change (re_sub_dev (json_dumps pillar)) with (pillar_text pillar).
  rewrite pillar_text_dumps_with by now apply strings_plain_floats_printed.
  now apply dumps_with_device_token.
Qed.

Lemma pillar_text_is_serialized_pillar_witness :
  executed (run_lowstate salt_call_empty 1%nat (JString "sbd") "base" pillar_nested)
  = [LOWSTATE_SLS_CMD (JString "sbd") "base"
       (dq "{'sbd': {'/dev/sda2': ['/dev/sda2', 1]}, 'name': 'node'}")]
  /\ hd_error (executed (run_lowstate salt_call_empty 1%nat (JString "sbd") "base"
                           pillar_nested))
     = Some (LOWSTATE_SLS_CMD (JString "sbd") "base"
               (json_dumps
                  (JObject [("sbd", JObject [("/dev/sda2",
                                              JArray [JString "/dev/sda2"; JInt 1])]);
                            ("name", JString "node")]))).
Proof.
  split; [reflexivity|].
  exact (pillar_text_is_serialized_pillar salt_call_empty 0%nat (JString "sbd")
           "base" pillar_nested eq_refl eq_refl).
Defined.
